(** * Utterance classification with a linear SVC: trainer and classifier

    A shallow embedding of the two functions of the notebook
    [sklearn.svm.LinearSVC.ipynb]:

    - [train_linear_svc_model] (notebook lines 172-204), and
    - [classify_utterance]     (notebook lines 252-263).

    Python's effects are made explicit: a function of the notebook is a
    state transformer over a [World] (file system, console, numpy's global
    random state) whose result is either a value or a raised exception.
    The third-party collaborators (numpy, pandas, pickle, scikit-learn) are
    represented by the interface [Libs]; what scikit-learn does around its
    numerical kernels (array validation, vocabulary construction, counting,
    label encoding, the arg-max of [predict]) is written out.

    Scope.  A column of a frame holds Python strings, int64 or float64
    values, which is what [pd.read_json] makes of JSON text (a column of
    numeric-looking strings becomes numeric).  Files are data: a pickle
    holds a vectorizer, a classifier or an object without their methods,
    and unpickling has no effect of its own. *)

From Stdlib Require Import ZArith QArith Qround Floats Uint63 String Ascii List Lia.
From Stdlib Require Import DecimalString.
From stdpp Require Import base option list strings sorting gmap sets.

Local Open Scope string_scope.
Local Open Scope list_scope.
Local Open Scope nat_scope.

(** ** Python values and exceptions *)

(** The built-in exceptions that the two functions can meet. *)
Inductive exn : Type :=
| FileNotFoundError (path : string)
| PermissionError (path : string)
| UnpicklingError
| KeyError (key : string)
| ValueError (msg : string)
| IndexError
| AttributeError (attr : string)
| TypeError (msg : string)
| UserDefined (class_name : string).   (* a class defined by the program; the notebook defines none *)

(** The result of evaluating a Python expression or statement. *)
Inductive outcome (A : Type) : Type :=
| Return (a : A)
| Raise (e : exn).
Arguments Return {A} a.
Arguments Raise {A} e.

(** Python's [None]. *)
Abbreviation NoneType := unit.
Abbreviation None_ := tt.

Definition obind {A B} (o : outcome A) (k : A -> outcome B) : outcome B :=
  match o with
  | Return a => k a
  | Raise e => Raise e
  end.

#[export] Instance outcome_ret : MRet outcome := @Return.
#[export] Instance outcome_bind : MBind outcome := fun A B k o => obind o k.

Definition returned {A} (o : outcome A) : bool :=
  match o with Return _ => true | Raise _ => false end.

(** ** Data frames

    [pd.read_json] yields a frame of named columns.  After its dtype
    inference a cell is a Python [str] (in a column of dtype [object]), a
    numpy [int64] or a numpy [float64]: a column of strings that all parse
    as numbers has become numeric.  The other values that JSON text can
    hold (booleans, [null] among strings, nested arrays and objects) are
    not represented. *)
Inductive cell : Type :=
| CStr (s : string)
| CInt (z : Z)
| CFloat (f : float).

Definition Series := list cell.
Definition DataFrame := list (string * Series).

(** The strings of a column, when all its cells are strings. *)
Definition strings_of (col : Series) : option (list string) :=
  mapM (fun c => match c with CStr s => Some s | _ => None end) col.

(** The strings among the cells of a column. *)
Definition documents (col : Series) : list string :=
  omap (fun c => match c with CStr s => Some s | _ => None end) col.

(** ** Class labels

    The targets that scikit-learn accepts for classification are strings,
    integers, or floats whose values are all integers; a float label is
    kept by its value ([0.0] and [-0.0], which numpy compares equal, are
    one label). *)
Inductive label : Type :=
| LStr (s : string)
| LInt (z : Z)
| LFloat (z : Z).

#[export] Instance label_eq_dec : EqDecision label.
Proof. solve_decision. Defined.

(** The value of a float that is an integer of the [int64] range, that is,
    of a float [f] with [f == f.astype(int)]. *)
Definition int64_of_float (f : float) : option Z :=
  let in_range (v : Z) :=
    if ((- 2 ^ 63 <=? v) && (v <? 2 ^ 63))%Z then Some v else None in
  match Prim2SF f with
  | S754_zero _ => Some 0%Z
  | S754_finite s m e =>
      let signed (v : Z) := if s then (- v)%Z else v in
      if (0 <=? e)%Z then in_range (signed (Z.pos m * 2 ^ e)%Z)
      else if (Z.pos m mod 2 ^ (- e) =? 0)%Z
           then in_range (signed (Z.pos m / 2 ^ (- e))%Z)
           else None
  | _ => None
  end.

(** The label that a cell stands for, when it can be one. *)
Definition label_of (c : cell) : option label :=
  match c with
  | CStr s => Some (LStr s)
  | CInt z => Some (LInt z)
  | CFloat f => LFloat <$> int64_of_float f
  end.

(** The labels among the cells of a column. *)
Definition labels (col : Series) : list label := omap label_of col.

(** [df[key]]: the first column of that name, [KeyError] when absent. *)
Fixpoint getitem (df : DataFrame) (key : string) : outcome Series :=
  match df with
  | [] => Raise (KeyError key)
  | (name, col) :: rest => if String.eqb name key then Return col else getitem rest key
  end.

(** A frame holds no example when every column it has is empty. *)
Definition no_examples (df : DataFrame) : Prop :=
  Forall (fun c => snd c = []) df.

(** ** Fitted scikit-learn objects *)

(** A fitted [CountVectorizer]: [vocabulary_] lists the feature names in
    column order (the term of column [j] is the [j]-th entry). *)
Record CountVectorizer : Type := { vocabulary_ : list string }.

(** A fitted [LinearSVC]. *)
Record LinearSVC : Type := {
  classes_ : list label;
  coef_ : list (list float);
  intercept_ : list float
}.

(** The objects a pickle file can hold: the two that the notebook pickles,
    or an object of another type, which has neither [transform] nor
    [predict]. *)
Inductive pyobj : Type :=
| ObjCountVectorizer (cv : CountVectorizer)
| ObjLinearSVC (m : LinearSVC)
| ObjOther (type_name : string).

(** ** The third-party collaborators

    What the notebook imports and does not define.  The fields are the
    library entry points the two functions reach; the laws are the parts
    of their documented contracts that the results below rely on. *)
Class Libs : Type := {
  (** numpy: the state of the global [RandomState] and a draw
      [rnd.randint(np.iinfo('i').max)] from it; the array
      [RandomState(seed).permutation(n)] of a freshly seeded generator. *)
  rng : Type;
  randint : rng -> Z * rng;
  permutation : Z -> nat -> list nat;
  permutation_spec : forall seed n, permutation seed n ≡ₚ seq 0 n;
  (** File contents, and pickle as an opaque serializer. *)
  blob : Type;
  blob_empty : blob;
  pickle_dumps : pyobj -> blob;
  pickle_loads : blob -> outcome pyobj;
  pickle_loads_dumps : forall o, pickle_loads (pickle_dumps o) = Return o;
  (** pandas: [pd.read_json] of a path (or of literal JSON text) against
      the files present. *)
  pd_read_json : string -> gmap string blob -> outcome DataFrame;
  (** Python: [repr] of the float that has the given integer value, as in
      [str(np.float64(2.0))]. *)
  float_repr : Z -> string;
  (** scikit-learn: the analyzer of a default [CountVectorizer]
      (lower-casing and tokenization), the values computed by
      [TfidfTransformer().fit_transform], and liblinear's solver, which
      receives the design matrix, the encoded targets and a seed, and
      returns [coef_] and [intercept_]. *)
  build_analyzer : string -> list string;
  tfidf_fit_transform : list (list nat) -> list (list float);
  tfidf_shape : forall X, map length (tfidf_fit_transform X) = map length X;
  liblinear_train_wrap : list (list float) -> list nat -> Z -> list (list float) * list float;
  liblinear_shape : forall X y_ind seed,
    let nr_class := length (remove_dups y_ind) in
    let W := fst (liblinear_train_wrap X y_ind seed) in
    let b := snd (liblinear_train_wrap X y_ind seed) in
    2 <= nr_class ->
    length W = (if nr_class =? 2 then 1 else nr_class) /\
    length b = length W /\
    Forall (fun w => length w = length (hd [] X)) W
}.

(** ** The world a call runs in *)
Record World_ (blob rng : Type) : Type := {
  files : gmap string blob;        (* the files that exist, by path *)
  unwritable : gset string;        (* paths that cannot be opened for writing *)
  np_random : rng;                 (* numpy's global random state *)
  stdout : list string             (* the lines printed so far *)
}.
Arguments files {blob rng} _.
Arguments unwritable {blob rng} _.
Arguments np_random {blob rng} _.
Arguments stdout {blob rng} _.
Abbreviation World := (World_ blob rng).

Section Notebook.
Context `{L : Libs}.

Definition set_files (f : gmap string blob -> gmap string blob) (w : World) : World :=
  {| files := f (files w); unwritable := unwritable w;
     np_random := np_random w; stdout := stdout w |}.
Definition set_np_random (r : rng) (w : World) : World :=
  {| files := files w; unwritable := unwritable w;
     np_random := r; stdout := stdout w |}.
Definition set_stdout (f : list string -> list string) (w : World) : World :=
  {| files := files w; unwritable := unwritable w;
     np_random := np_random w; stdout := f (stdout w) |}.

(** ** Python computations: state that survives a raised exception *)
Definition Py (A : Type) : Type := World -> World * outcome A.

Definition ret {A} (a : A) : Py A := fun w => (w, Return a).
Definition raise {A} (e : exn) : Py A := fun w => (w, Raise e).
Definition lift {A} (o : outcome A) : Py A := fun w => (w, o).
Definition bind {A B} (m : Py A) (k : A -> Py B) : Py B :=
  fun w => match m w with
           | (w', Return a) => k a w'
           | (w', Raise e) => (w', Raise e)
           end.

(** [try: body  except: handler] with a bare [except], which catches
    every exception. *)
Definition try_except {A} (body handler : Py A) : Py A :=
  fun w => match body w with
           | (w', Return a) => (w', Return a)
           | (w', Raise _) => handler w'
           end.

#[export] Instance Py_ret : MRet Py := @ret.
#[export] Instance Py_bind : MBind Py := fun A B k m => bind m k.

End Notebook.

Section Builtins.
Context `{L : Libs}.

(** ** Built-ins *)

Definition print (line : string) : Py NoneType :=
  fun w => (set_stdout (fun out => out ++ [line]) w, Return None_).

(** [open(path, 'rb')]: the handle gives the content of the file. *)
Definition open_rb (path : string) : Py blob :=
  fun w => match files w !! path with
           | Some content => (w, Return content)
           | None => (w, Raise (FileNotFoundError path))
           end.

(** [open(path, 'wb')]: creates or truncates the file; the handle is the
    path written to. *)
Definition open_wb (path : string) : Py string :=
  fun w => if decide (path ∈ unwritable w)
           then (w, Raise (PermissionError path))
           else (set_files (insert path blob_empty) w, Return path).

(** [pickle.dump(obj, fh)] and [pickle.load(fh)]. *)
Definition pickle_dump (obj : pyobj) (fh : string) : Py NoneType :=
  fun w => (set_files (insert fh (pickle_dumps obj)) w, Return None_).
Definition pickle_load (content : blob) : Py pyobj :=
  lift (pickle_loads content).

(** [pd.read_json(arg)]. *)
Definition read_json (arg : string) : Py DataFrame :=
  fun w => (w, pd_read_json arg (files w)).

(** [rnd.randint(...)] on numpy's global generator. *)
Definition np_random_randint : Py Z :=
  fun w => let '(seed, r) := randint (np_random w) in (set_np_random r w, Return seed).

End Builtins.

(** ** numpy and scikit-learn, around the numerical kernels *)

(** The order of Python strings, character by character. *)
Definition str_le (s t : string) : Prop := String.leb s t = true.
#[export] Instance str_le_dec : RelDecision str_le.
Proof. intros s t. unfold str_le. apply _. Defined.

(** The order of labels of one kind; labels of different kinds, which
    never meet in one array of targets, are ordered by kind. *)
Definition label_le (a b : label) : Prop :=
  match a, b with
  | LStr s, LStr t => str_le s t
  | LInt x, LInt y | LFloat x, LFloat y => (x <= y)%Z
  | LStr _, _ => True
  | LInt _, LFloat _ => True
  | _, _ => False
  end.
#[export] Instance label_le_dec : RelDecision label_le.
Proof. intros [s | x | x] [t | y | y]; cbn; apply _. Defined.

(** [np.unique]: the distinct values, ascending. *)
Definition np_unique {A} `{EqDecision A} (le : relation A) `{!RelDecision le}
    (a : list A) : list A :=
  merge_sort le (remove_dups a).

(** The position of a value in the array of classes
    ([LabelEncoder.transform]). *)
Fixpoint index_of (classes : list label) (l : label) : nat :=
  match classes with
  | [] => 0
  | c :: rest => if bool_decide (c = l) then 0 else S (index_of rest l)
  end.

(** [np.argmax] on a row of doubles: the first position whose value is not
    [<=] the running maximum takes over, and a NaN is maximal. *)
Fixpoint argmax_from (max_ind : nat) (mp : float) (i : nat) (ip : list float) : nat :=
  match ip with
  | [] => max_ind
  | x :: rest =>
      if PrimFloat.leb x mp then argmax_from max_ind mp (S i) rest
      else if PrimFloat.is_nan x then i
      else argmax_from i x (S i) rest
  end.
Definition argmax (scores : list float) : nat :=
  match scores with
  | [] => 0
  | mp :: rest => if PrimFloat.is_nan mp then 0 else argmax_from 0 mp 1 rest
  end.

(** A term count as a double. *)
Definition float_of_count (c : nat) : float :=
  PrimFloat.of_uint63 (Uint63.of_Z (Z.of_nat c)).

(** One entry of [X @ coef_.T]: [X] is sparse, so only the columns with a
    non-zero count contribute, in column order. *)
Definition dot (x : list nat) (w : list float) : float :=
  fold_left (fun acc cw =>
               if fst cw =? 0 then acc
               else PrimFloat.add acc (PrimFloat.mul (float_of_count (fst cw)) (snd cw)))
            (zip x w) 0%float.

(** [_safe_indexing(a, indices)]. *)
Definition safe_indexing {A} (a : list A) (indices : list nat) : outcome (list A) :=
  match mapM (fun i => a !! i) indices with
  | Some r => Return r
  | None => Raise IndexError
  end.

Section Sklearn.
Context `{L : Libs}.

(** [train_test_split(X, y, test_size=..., random_state=seed)] with
    [train_size=None], [shuffle=True], [stratify=None]: the sizes are those
    of [_validate_shuffle_split], the indices those of [ShuffleSplit]. *)
Definition default_test_size : Q := 1 # 4.

Definition train_test_split {A B} (X : list A) (y : list B)
    (test_size : option Q) (random_state : Z)
    : outcome (list A * list A * list B * list B) :=
  if negb (length X =? length y)
  then Raise (ValueError "Found input variables with inconsistent numbers of samples")
  else
    let n_samples := length X in
    let test_size := default default_test_size test_size in
    if Qle_bool test_size 0 || Qle_bool 1 test_size
    then Raise (ValueError "test_size should be in the (0, 1) range")
    else
      let n_test := Z.to_nat (Qceiling (test_size * inject_Z (Z.of_nat n_samples))) in
      let n_train := n_samples - n_test in
      if n_train =? 0
      then Raise (ValueError "the resulting train set will be empty")
      else
        let perm := permutation random_state n_samples in
        let ind_test := take n_test perm in
        let ind_train := take n_train (drop n_test perm) in
        X_train ← safe_indexing X ind_train;
        X_test ← safe_indexing X ind_test;
        y_train ← safe_indexing y ind_train;
        y_test ← safe_indexing y ind_test;
        Return (X_train, X_test, y_train, y_test).

(** [CountVectorizer.transform]: per document, the number of occurrences
    of each vocabulary term; tokens outside the vocabulary are skipped. *)
Definition transform (cv : CountVectorizer) (raw_documents : list string) : list (list nat) :=
  map (fun doc => map (fun term => count_occ string_dec (build_analyzer doc) term)
                      (vocabulary_ cv))
      raw_documents.

(** What the analyzer makes of a cell: a string is a document; a number
    has no [lower], and [np.nan] is refused by name. *)
Definition as_document (c : cell) : outcome string :=
  match c with
  | CStr s => Return s
  | CInt _ => Raise (AttributeError "lower")
  | CFloat f =>
      if PrimFloat.is_nan f
      then Raise (ValueError "np.nan is an invalid document, expected byte or unicode string.")
      else Raise (AttributeError "lower")
  end.

Fixpoint as_documents (col : list cell) : outcome (list string) :=
  match col with
  | [] => Return []
  | c :: rest => doc ← as_document c; docs ← as_documents rest; Return (doc :: docs)
  end.

(** [CountVectorizer().fit_transform]: the documents are analyzed in
    order; the vocabulary is the sorted set of their tokens; an empty one
    is an error. *)
Definition fit_transform (raw_documents : list cell)
    : outcome (CountVectorizer * list (list nat)) :=
  docs ← as_documents raw_documents;
  match np_unique str_le (concat (map build_analyzer docs)) with
  | [] => Raise (ValueError "empty vocabulary; perhaps the documents only contain stop words")
  | vocabulary =>
      let count_vect := {| vocabulary_ := vocabulary |} in
      Return (count_vect, transform count_vect docs)
  end.

(** The targets of a classifier, as [check_X_y],
    [check_classification_targets] and the sort of [np.unique] leave them:
    strings, or integers, or floats that are all integers; a float that is
    not (or is not finite) makes the targets continuous, and values of
    different kinds in one array are unknown targets or cannot be
    sorted. *)
Definition check_targets (y : list cell) : outcome (list label) :=
  match y with
  | [] => Return []
  | CStr _ :: _ =>
      match strings_of y with
      | Some ss => Return (LStr <$> ss)
      | None =>
          if existsb (fun c => match c with CFloat f => PrimFloat.is_nan f | _ => false end) y
          then Raise (ValueError "Input contains NaN")
          else Raise (TypeError "'<' not supported between instances of 'int' and 'str'")
      end
  | CInt _ :: _ =>
      match mapM (fun c => match c with CInt z => Some (LInt z) | _ => None end) y with
      | Some ls => Return ls
      | None => Raise (ValueError "Unknown label type: 'unknown'")
      end
  | CFloat _ :: _ =>
      match mapM (fun c => match c with CFloat f => LFloat <$> int64_of_float f | _ => None end) y with
      | Some ls => Return ls
      | None => Raise (ValueError "Unknown label type: 'continuous'")
      end
  end.

(** [LinearSVC().fit(X, y)]: [random_state] is left at [None], so the seed
    handed to liblinear is drawn from numpy's global generator. *)
Definition LinearSVC_fit (X : list (list float)) (y : list cell) : Py LinearSVC :=
  if negb (length X =? length y)
  then raise (ValueError "Found input variables with inconsistent numbers of samples")
  else
    targets ← lift (check_targets y);
    let classes := np_unique label_le targets in
    if length classes <? 2
    then raise (ValueError "This solver needs samples of at least 2 classes in the data")
    else
      seed ← np_random_randint;
      let y_ind := map (index_of classes) targets in
      let fitted := liblinear_train_wrap X y_ind seed in
      mret {| classes_ := classes; coef_ := fst fitted; intercept_ := snd fitted |}.

End Sklearn.

(** [LinearSVC.decision_function]: one score per row of [coef_]. *)
Definition decision_function (m : LinearSVC) (X : list (list nat)) : outcome (list (list float)) :=
  let n_features := length (hd [] (coef_ m)) in
  if forallb (fun x => length x =? n_features) X
  then Return (map (fun x => zip_with (fun w b => PrimFloat.add (dot x w) b)
                                      (coef_ m) (intercept_ m)) X)
  else Raise (ValueError "X has a different number of features per sample than the model expects").

(** [LinearSVC.predict]: with a single row of coefficients (two classes)
    the sign of the score decides, otherwise the arg-max. *)
Definition predict_index (scores : list float) : nat :=
  match scores with
  | [score] => if PrimFloat.ltb 0%float score then 1 else 0
  | _ => argmax scores
  end.

Definition class_at (m : LinearSVC) (i : nat) : outcome label :=
  match classes_ m !! i with
  | Some c => Return c
  | None => Raise IndexError
  end.

Fixpoint take_classes (m : LinearSVC) (indices : list nat) : outcome (list label) :=
  match indices with
  | [] => Return []
  | i :: rest => c ← class_at m i; cs ← take_classes m rest; Return (c :: cs)
  end.

Definition predict (m : LinearSVC) (X : list (list nat)) : outcome (list label) :=
  scores ← decision_function m X;
  take_classes m (map predict_index scores).

(** ** The notebook's two functions *)
Section Functions.
Context `{L : Libs}.

(** Attribute look-up on an unpickled object: only a [CountVectorizer] has
    [transform], only a [LinearSVC] has [predict]. *)
Definition get_predict (o : pyobj) : outcome LinearSVC :=
  match o with
  | ObjLinearSVC m => Return m
  | ObjCountVectorizer _ | ObjOther _ => Raise (AttributeError "predict")
  end.
Definition get_transform (o : pyobj) : outcome CountVectorizer :=
  match o with
  | ObjCountVectorizer cv => Return cv
  | ObjLinearSVC _ | ObjOther _ => Raise (AttributeError "transform")
  end.

(** [raw_intent[0]]. *)
Definition item0 (raw_intent : list label) : outcome label :=
  match raw_intent with
  | l :: _ => Return l
  | [] => Raise IndexError
  end.

(** [str(...)] of a predicted label: a string is itself, an [int64] is
    written in decimal, a [float64] as Python writes floats. *)
Definition str (l : label) : string :=
  match l with
  | LStr s => s
  | LInt z => NilZero.string_of_int (Z.to_int z)
  | LFloat z => float_repr z
  end.

Definition clf_model_vectorizer_pickle_file : string := "model_vectorizer.pickle".
Definition clf_model_file : string := "classification.model".

Definition training_completed : list string :=
  [ "------LinearSVC CLASSIFICATION TRAINING COMPLETED------";
    "Vectorizer model saved to the current directory";
    "Classification model saved to the current directory" ].
Definition error : string := "Error training classification model".

(** The suite of the [try] statement, notebook lines 174-201. *)
Definition train_body (classification_training_data_json : string) : Py NoneType :=
  df ← read_json classification_training_data_json;
  X ← lift (getitem df "utterance");
  y ← lift (getitem df "intent");
  '(X_train, X_test, y_train, y_test) ← lift (train_test_split X y None 0);
  '(count_vect, X_train_counts) ← lift (fit_transform X_train);
  let X_train_tfidf := tfidf_fit_transform X_train_counts in
  model ← LinearSVC_fit X_train_tfidf y_train;
  fh ← open_wb clf_model_vectorizer_pickle_file;
  pickle_dump (ObjCountVectorizer count_vect) fh;;
  fh ← open_wb clf_model_file;
  pickle_dump (ObjLinearSVC model) fh;;
  print "------LinearSVC CLASSIFICATION TRAINING COMPLETED------";;
  print "Vectorizer model saved to the current directory";;
  print "Classification model saved to the current directory".

(** [train_linear_svc_model], notebook lines 172-204. *)
Definition train_linear_svc_model (classification_training_data_json : string) : Py NoneType :=
  try_except (train_body classification_training_data_json) (print error).

(** What the two loaded objects answer for one utterance:
    [str(model.predict(vectorizer.transform([utterance]))[0])]. *)
Definition predict_utterance (loaded_model_vectorizer loaded_model : pyobj)
    (utterance : string) : outcome string :=
  m ← get_predict loaded_model;
  cv ← get_transform loaded_model_vectorizer;
  raw_intent ← predict m (transform cv [utterance]);
  l ← item0 raw_intent;
  Return (str l).

(** [classify_utterance], notebook lines 252-263. *)
Definition classify_utterance (utterance vectorizer_file model_file : string) : Py string :=
  fh ← open_rb vectorizer_file;
  loaded_model_vectorizer ← pickle_load fh;
  fh ← open_rb model_file;
  loaded_model ← pickle_load fh;
  intent ← lift (predict_utterance loaded_model_vectorizer loaded_model utterance);
  mret intent.

End Functions.

(** ** A sample instantiation of the collaborators

    Used to run the two functions on concrete inputs: files hold either a
    JSON array of examples, a pickled object or text; the permutation is a
    reversal; the analyzer lower-cases ASCII letters and keeps the runs of
    at least two word characters; the weights of a class are the column
    sums of its training rows (for two classes, the difference of the two
    sums).  Reading JSON follows pandas on the data used below: a column
    whose strings are all plain decimal numerals becomes [int64], a column
    with a string that is no number stays a column of strings (other
    numeric spellings, which pandas also converts, are not used). *)
Module Sample.

(** A JSON array of examples: the [intent] and the [utterance] of each. *)
Definition examples := list (string * string).

Inductive sample_blob : Type :=
| BEmpty
| BPickle (o : pyobj)
| BJson (records : examples)
| BText (s : string).

Definition is_numeral (s : string) : bool :=
  let cs := list_ascii_of_string s in
  (1 <=? length cs) && (length cs <=? 15) &&
  forallb (fun c => (48 <=? nat_of_ascii c) && (nat_of_ascii c <=? 57)) cs.

Definition numeral_value (s : string) : Z :=
  fold_left (fun acc c => (10 * acc + Z.of_nat (nat_of_ascii c - 48))%Z)
            (list_ascii_of_string s) 0%Z.

(** The dtype inference of [pd.read_json] on a column of strings. *)
Definition infer_dtype (col : list string) : Series :=
  if forallb is_numeral col
  then map (fun s => CInt (numeral_value s)) col
  else map CStr col.

(** The frame of a JSON array of examples; an empty array gives a frame
    without columns. *)
Definition frame_of (records : examples) : DataFrame :=
  match records with
  | [] => []
  | _ => [ ("intent", infer_dtype (map fst records));
           ("utterance", infer_dtype (map snd records)) ]
  end.

Definition sample_loads (b : sample_blob) : outcome pyobj :=
  match b with
  | BPickle o => Return o
  | _ => Raise UnpicklingError
  end.

Definition sample_read_json (arg : string) (fs : gmap string sample_blob) : outcome DataFrame :=
  match fs !! arg with
  | Some (BJson records) => Return (frame_of records)
  | _ => Raise (ValueError "Expected object or value")
  end.

(** [repr] of a float with an integer value below [10 ^ 16]. *)
Definition sample_float_repr (z : Z) : string :=
  NilZero.string_of_int (Z.to_int z) ++ ".0".

Definition lower (c : ascii) : ascii :=
  let n := nat_of_ascii c in
  if (65 <=? n) && (n <=? 90) then ascii_of_nat (n + 32) else c.

Definition is_word_char (c : ascii) : bool :=
  let n := nat_of_ascii c in
  ((48 <=? n) && (n <=? 57)) || ((97 <=? n) && (n <=? 122)) || (n =? 95).

Definition flush (run : list ascii) (acc : list string) : list string :=
  if 2 <=? length run then string_of_list_ascii (rev run) :: acc else acc.

Fixpoint tokens (s : list ascii) (run : list ascii) (acc : list string) : list string :=
  match s with
  | [] => rev (flush run acc)
  | c :: rest =>
      let c := lower c in
      if is_word_char c then tokens rest (c :: run) acc
      else tokens rest [] (flush run acc)
  end.

Definition sample_analyzer (doc : string) : list string :=
  tokens (list_ascii_of_string doc) [] [].

Definition sum_floats (l : list float) : float :=
  fold_left PrimFloat.add l 0%float.

(** The sum over the rows of [X] of entry [j], signed by [sign (y_i)]. *)
Definition column_sum (X : list (list float)) (y_ind : list nat)
    (sign : nat -> float) (j : nat) : float :=
  sum_floats (zip_with (fun x yi => PrimFloat.mul (sign yi) (nth j x 0%float)) X y_ind).

Definition sample_train (X : list (list float)) (y_ind : list nat) (seed : Z)
    : list (list float) * list float :=
  let nr_class := length (remove_dups y_ind) in
  let n_features := length (hd [] X) in
  let rows := if nr_class =? 2 then [1] else seq 0 nr_class in
  let sign k yi :=
    if yi =? k then 1%float else if nr_class =? 2 then (-1)%float else 0%float in
  (map (fun k => map (column_sum X y_ind (sign k)) (seq 0 n_features)) rows,
   map (fun _ => 0%float) rows).

#[export] Instance sample_libs : Libs.
Proof.
  refine {|
    rng := nat;
    randint := fun n => (Z.of_nat n, S n);
    permutation := fun _ n => rev (seq 0 n);
    blob := sample_blob;
    blob_empty := BEmpty;
    pickle_dumps := BPickle;
    pickle_loads := sample_loads;
    pd_read_json := sample_read_json;
    float_repr := sample_float_repr;
    build_analyzer := sample_analyzer;
    tfidf_fit_transform := map (map float_of_count);
    liblinear_train_wrap := sample_train
  |}.
  - abstract (intros _ n; symmetry; apply Permutation_rev).
  - abstract reflexivity.
  - abstract (intros X; rewrite map_map; apply map_ext; intros x; apply length_map).
  - abstract (
      intros X y_ind seed nr_class W b Hk; subst W b; unfold sample_train; cbn [fst snd];
      fold nr_class; rewrite !length_map; split_and!;
      [ destruct (nr_class =? 2); [reflexivity | apply length_seq]
      | reflexivity
      | apply Forall_forall; intros w Hw;
        apply list_elem_of_In, in_map_iff in Hw as (k & <- & _);
        rewrite length_map; apply length_seq ]).
Defined.

(** The training data shown in the notebook (lines 125-154), and the
    frame read from it. *)
Definition classification_data : examples :=
  [ ("greeting", "whats up");
    ("book_appointment", "I am looking to book a haircut");
    ("book_appointment", "help me to set up a haircut with usual stylist");
    ("book_appointment", "is tomorrow at 10am ok too book a simple manicure");
    ("business_hours", "do you open for business on weekends");
    ("business_hours", "when are you closing?");
    ("business_hours", "when are you open for business") ].
Definition classification_frame : DataFrame := frame_of classification_data.

Definition world0 : World :=
  {| files := {[ "classification_data.json" := BJson classification_data ]};
     unwritable := ∅;
     np_random := 0;
     stdout := [] |}.

(** A world whose data file holds a frame without any example. *)
Definition world_empty : World :=
  {| files := {[ "classification_data.json" := BJson [] ]};
     unwritable := ∅;
     np_random := 0;
     stdout := [] |}.

End Sample.

(** ** How a run is observed *)

(** The local variables of [train_linear_svc_model] once its [try] suite
    has run to its end. *)
Module Locals.
Record t : Type := {
  df : DataFrame;
  X : Series;
  y : Series;
  X_train : list cell;
  X_test : list cell;
  y_train : list cell;
  y_test : list cell;
  count_vect : CountVectorizer;
  X_train_counts : list (list nat);
  model : LinearSVC
}.
End Locals.

(** The shape of a classifier fitted on [n_features] columns: one row of
    coefficients for two classes, one row per class otherwise. *)
Definition fitted_shape (m : LinearSVC) (n_features : nat) : Prop :=
  2 <= length (classes_ m) /\
  length (coef_ m) = (if length (classes_ m) =? 2 then 1 else length (classes_ m)) /\
  length (intercept_ m) = length (coef_ m) /\
  Forall (fun w => length w = n_features) (coef_ m).

Section Observations.
Context `{L : Libs}.

(** Computations that leave the console and the write permissions alone,
    and computations that print nothing when they raise. *)
Definition quiet {A} (m : Py A) : Prop :=
  forall w w1 r, m w = (w1, r) -> stdout w1 = stdout w /\ unwritable w1 = unwritable w.
Definition silent_failure {A} (m : Py A) : Prop :=
  forall w w1 e, m w = (w1, Raise e) -> stdout w1 = stdout w.

(** [completes arg w w' v]: the [try] suite, started in [w] on [arg], can
    run to its end in [w'] with the local variables [v]. *)
Definition completes (arg : string) (w w' : World) (v : Locals.t) : Prop :=
  pd_read_json arg (files w) = Return (Locals.df v) /\
  getitem (Locals.df v) "utterance" = Return (Locals.X v) /\
  getitem (Locals.df v) "intent" = Return (Locals.y v) /\
  train_test_split (Locals.X v) (Locals.y v) None 0 =
    Return (Locals.X_train v, Locals.X_test v, Locals.y_train v, Locals.y_test v) /\
  fit_transform (Locals.X_train v) = Return (Locals.count_vect v, Locals.X_train_counts v) /\
  (exists w1, LinearSVC_fit (tfidf_fit_transform (Locals.X_train_counts v)) (Locals.y_train v) w
              = (w1, Return (Locals.model v))) /\
  (clf_model_vectorizer_pickle_file ∉ unwritable w) /\
  (clf_model_file ∉ unwritable w) /\
  files w' = <[clf_model_file := pickle_dumps (ObjLinearSVC (Locals.model v))]>
             (<[clf_model_vectorizer_pickle_file :=
                  pickle_dumps (ObjCountVectorizer (Locals.count_vect v))]> (files w)) /\
  unwritable w' = unwritable w /\
  stdout w' = stdout w ++ training_completed.

(** The positions of the held-out and of the training examples among [n]:
    the first [ceil (n / 4)] entries of the permutation drawn with seed 0,
    and the others. *)
Definition ind_test (n : nat) : list nat := take ((n + 3) / 4) (permutation 0 n).
Definition ind_train (n : nat) : list nat := drop ((n + 3) / 4) (permutation 0 n).

(** A call of the trainer has succeeded when it returned after printing
    the three completion lines. *)
Definition training_succeeded (arg : string) (w w' : World) : Prop :=
  train_linear_svc_model arg w = (w', Return None_) /\
  stdout w' = stdout w ++ training_completed.

(** A call of the trainer has failed when its [try] suite raised. *)
Definition training_failed (arg : string) (w : World) : Prop :=
  exists w1 e, train_body arg w = (w1, Raise e).

(** The classifier, on the two artifacts the trainer writes. *)
Definition classify_trained (utterance : string) : Py string :=
  classify_utterance utterance clf_model_vectorizer_pickle_file clf_model_file.

(** The split would be configuration of the trainer if a caller could
    obtain two different partitions of the same examples: two completed
    calls that read the same frame under the same random state would then
    write different artifacts. *)
Definition split_configurable : Prop :=
  exists (arg1 arg2 : string) (w1 w2 w1' w2' : World),
    pd_read_json arg1 (files w1) = pd_read_json arg2 (files w2) /\
    np_random w1 = np_random w2 /\
    training_succeeded arg1 w1 w1' /\
    training_succeeded arg2 w2 w2' /\
    (files w1' !! clf_model_vectorizer_pickle_file
       <> files w2' !! clf_model_vectorizer_pickle_file \/
     files w1' !! clf_model_file <> files w2' !! clf_model_file).


End Observations.

(** ** Sample runs *)
Module SampleRuns.
Import Sample.

(** The world after training on the notebook's data. *)
Definition trained_world : World :=
  fst (train_linear_svc_model "classification_data.json" world0).

(** The vectorizer that this run has written. *)
Definition trained_count_vect : CountVectorizer :=
  {| vocabulary_ :=
       [ "10am"; "am"; "at"; "book"; "business"; "do"; "for"; "haircut";
         "help"; "is"; "looking"; "manicure"; "me"; "ok"; "on"; "open";
         "set"; "simple"; "stylist"; "to"; "tomorrow"; "too"; "up";
         "usual"; "weekends"; "whats"; "with"; "you" ] |}.

(** The notebook's data, but the model file cannot be written. *)
Definition world_readonly_model : World :=
  {| files := files world0;
     unwritable := {[ clf_model_file ]};
     np_random := 0;
     stdout := [] |}.


(** Eight examples whose intents are written as numerals: [pd.read_json]
    reads the [intent] column as [int64]. *)
Definition numbered_data : examples :=
  [ ("01", "book a haircut"); ("01", "book a manicure");
    ("01", "book a massage"); ("01", "book a shave");
    ("02", "opening hours today"); ("02", "opening hours tomorrow");
    ("02", "opening hours sunday"); ("02", "opening hours monday") ].

Definition world_numbered : World :=
  {| files := {[ "numbered.json" := BJson numbered_data ]};
     unwritable := ∅;
     np_random := 0;
     stdout := [] |}.

Definition trained_numbered : World :=
  fst (train_linear_svc_model "numbered.json" world_numbered).

End SampleRuns.

(** ** The two stages of the trainer

    The [try] suite first fits (notebook lines 175-189), then saves and
    reports (lines 192-201). *)
Section Stages.
Context `{L : Libs}.

Definition fit_stage (classification_training_data_json : string)
    : Py (CountVectorizer * LinearSVC) :=
  df ← read_json classification_training_data_json;
  X ← lift (getitem df "utterance");
  y ← lift (getitem df "intent");
  '(X_train, X_test, y_train, y_test) ← lift (train_test_split X y None 0);
  '(count_vect, X_train_counts) ← lift (fit_transform X_train);
  let X_train_tfidf := tfidf_fit_transform X_train_counts in
  model ← LinearSVC_fit X_train_tfidf y_train;
  mret (count_vect, model).

Definition save_stage (fitted : CountVectorizer * LinearSVC) : Py NoneType :=
  fh ← open_wb clf_model_vectorizer_pickle_file;
  pickle_dump (ObjCountVectorizer (fst fitted)) fh;;
  fh ← open_wb clf_model_file;
  pickle_dump (ObjLinearSVC (snd fitted)) fh;;
  print "------LinearSVC CLASSIFICATION TRAINING COMPLETED------";;
  print "Vectorizer model saved to the current directory";;
  print "Classification model saved to the current directory".

(** The tokens of an utterance that a vectorizer knows. *)
Definition known_tokens (cv : CountVectorizer) (utterance : string) : list string :=
  filter (fun tok => tok ∈ vocabulary_ cv) (build_analyzer utterance).

End Stages.

(** ** More sample runs *)
Module MoreRuns.
Import Sample SampleRuns.

(** After the run that could not write the model file: the vectorizer
    file exists, the model file does not. *)
Definition world_vectorizer_only : World :=
  fst (train_linear_svc_model "classification_data.json" world_readonly_model).

(** The vectorizer file holds text that is no pickle. *)
Definition world_corrupt : World :=
  set_files (insert clf_model_vectorizer_pickle_file (BText "not a pickle")) trained_world.

(** The vectorizer of another run, with a two-word vocabulary, beside the
    classifier trained on the notebook's data. *)
Definition world_mismatch : World :=
  set_files (insert clf_model_vectorizer_pickle_file
               (BPickle (ObjCountVectorizer {| vocabulary_ := ["up"; "whats"] |})))
            trained_world.

(** Two examples only. *)
Definition two_examples : examples :=
  [ ("greeting", "whats up"); ("business_hours", "when are you closing?") ].
Definition world_two : World :=
  {| files := {[ "two.json" := BJson two_examples ]};
     unwritable := ∅;
     np_random := 0;
     stdout := [] |}.


(** The classifier that the notebook's run has written. *)
Definition trained_model : LinearSVC :=
  match files trained_world !! clf_model_file with
  | Some (BPickle (ObjLinearSVC m)) => m
  | _ => {| classes_ := []; coef_ := []; intercept_ := [] |}
  end.

(** After the notebook's run, the data file is replaced by the two
    examples and training is run again. *)
Definition world_retrain : World :=
  set_files (insert "classification_data.json" (BJson two_examples)) trained_world.

End MoreRuns.

(** * Results *)

(** ** Sequencing *)
Section Sequencing.
Context `{L : Libs}.

Lemma bind_Return {A B} (m : Py A) (k : A -> Py B) w w1 a :
  m w = (w1, Return a) -> (m ≫= k) w = k a w1.
Proof. intros H. unfold mbind, Py_bind, bind. by rewrite H. Qed.

Lemma bind_Raise {A B} (m : Py A) (k : A -> Py B) w w1 e :
  m w = (w1, Raise e) -> (m ≫= k) w = (w1, Raise e).
Proof. intros H. unfold mbind, Py_bind, bind. by rewrite H. Qed.

Lemma bind_inv {A B} (m : Py A) (k : A -> Py B) w w' r :
  (m ≫= k) w = (w', r) ->
  (exists w1 a, m w = (w1, Return a) /\ k a w1 = (w', r)) \/
  (exists e, m w = (w', Raise e) /\ r = Raise e).
Proof.
  unfold mbind, Py_bind, bind. destruct (m w) as [w1 [a | e]]; intros H.
  - left. eauto.
  - right. injection H as -> <-. eauto.
Qed.

Lemma bind_Return_inv {A B} (m : Py A) (k : A -> Py B) w w' b :
  (m ≫= k) w = (w', Return b) ->
  exists w1 a, m w = (w1, Return a) /\ k a w1 = (w', Return b).
Proof.
  intros H. apply bind_inv in H as [H | (e & _ & ?)]; [done | discriminate].
Qed.

Lemma lift_Return_inv {A} (o : outcome A) w w' a :
  lift o w = (w', Return a) -> w' = w /\ o = Return a.
Proof. unfold lift. by intros [= -> ->]. Qed.

Lemma obind_Return_inv {A B} (o : outcome A) (k : A -> outcome B) b :
  o ≫= k = Return b -> exists a, o = Return a /\ k a = Return b.
Proof. destruct o as [a | e]; [eauto | discriminate]. Qed.

End Sequencing.

(** ** Arrays: [np.unique], label encoding, indexing *)
Section Arrays.

Lemma elem_of_np_unique {A} `{EqDecision A} (le : relation A) `{!RelDecision le}
    (a : list A) (x : A) :
  x ∈ np_unique le a <-> x ∈ a.
Proof.
  unfold np_unique. rewrite merge_sort_Permutation. apply elem_of_remove_dups.
Qed.

Lemma NoDup_np_unique {A} `{EqDecision A} (le : relation A) `{!RelDecision le}
    (a : list A) :
  NoDup (np_unique le a).
Proof.
  unfold np_unique. rewrite merge_sort_Permutation. apply NoDup_remove_dups.
Qed.


Lemma index_of_inj (classes : list label) (s t : label) :
  s ∈ classes -> t ∈ classes -> index_of classes s = index_of classes t -> s = t.
Proof.
  induction classes as [| c rest IH]; intros Hs Ht; [by apply elem_of_nil in Hs |].
  cbn. do 2 case_bool_decide; try done; [congruence |].
  intros [= Heq]. apply IH; [| | done].
  - apply elem_of_cons in Hs as [-> |]; done.
  - apply elem_of_cons in Ht as [-> |]; done.
Qed.

(** liblinear sees as many classes as [np.unique] found. *)
Lemma nr_class_np_unique (y : list label) :
  length (remove_dups (map (index_of (np_unique label_le y)) y))
  = length (np_unique label_le y).
Proof.
  set (classes := np_unique label_le y).
  rewrite <- (length_fmap (index_of classes) classes).
  apply Permutation_length, NoDup_Permutation.
  - apply NoDup_remove_dups.
  - apply NoDup_fmap_2_strong; [| apply NoDup_np_unique].
    intros s t Hs Ht. by apply index_of_inj.
  - intros i. rewrite elem_of_remove_dups.
    change (map (index_of classes) y) with (index_of classes <$> y).
    rewrite !list_elem_of_fmap. split; intros (s & -> & Hs); exists s; split; try done.
    + by apply (elem_of_np_unique label_le y s).
    + by apply (elem_of_np_unique label_le y s) in Hs.
Qed.

Lemma safe_indexing_inv {A} (a : list A) (indices : list nat) (r : list A) :
  safe_indexing a indices = Return r -> Forall2 (fun i x => a !! i = Some x) indices r.
Proof.
  unfold safe_indexing. destruct (mapM _ indices) as [r' |] eqn:E; [| discriminate].
  intros [= <-]. by apply mapM_Some.
Qed.


Lemma indexed_elem_of {A} (a : list A) (indices : list nat) (r : list A) (x : A) :
  Forall2 (fun i x => a !! i = Some x) indices r -> x ∈ r -> x ∈ a.
Proof.
  induction 1 as [| i x' is' r' Hi _ IH]; intros Hx; [by apply elem_of_nil in Hx |].
  apply elem_of_cons in Hx as [-> | Hx]; [| by apply IH].
  by eapply list_elem_of_lookup_2.
Qed.


Lemma Qceiling_quarter (z : Z) :
  Qceiling (default_test_size * inject_Z z) = ((z + 3) / 4)%Z.
Proof.
  unfold default_test_size, Qceiling, Qfloor, Qopp, Qmult, inject_Z. cbn [Qnum Qden].
  change (Z.pos (4 * 1)) with 4%Z.
  replace (- (1 * z))%Z with (- z)%Z by lia.
  Z.to_euclidean_division_equations. lia.
Qed.

Lemma n_test_quarter (n : nat) :
  Z.to_nat (Qceiling (default_test_size * inject_Z (Z.of_nat n))) = (n + 3) / 4.
Proof.
  rewrite Qceiling_quarter.
  replace (Z.of_nat n + 3)%Z with (Z.of_nat (n + 3)) by lia.
  change 4%Z with (Z.of_nat 4). rewrite <- Nat2Z.inj_div. apply Nat2Z.id.
Qed.

End Arrays.

(** ** The split *)
Section Split.
Context `{L : Libs}.

Lemma length_permutation (seed : Z) (n : nat) : length (permutation seed n) = n.
Proof. rewrite (Permutation_length (permutation_spec seed n)). apply length_seq. Qed.



Lemma ind_test_train (n : nat) : ind_test n ++ ind_train n = permutation 0 n.
Proof. apply take_drop. Qed.

Lemma train_test_split_unfold {A B} (X : list A) (y : list B) :
  length X = length y -> (length X + 3) / 4 < length X ->
  train_test_split X y None 0 =
    (X_train ← safe_indexing X (ind_train (length X));
     X_test ← safe_indexing X (ind_test (length X));
     y_train ← safe_indexing y (ind_train (length X));
     y_test ← safe_indexing y (ind_test (length X));
     Return (X_train, X_test, y_train, y_test)).
Proof.
  intros Hlen Hn. unfold train_test_split.
  rewrite Hlen, Nat.eqb_refl. cbn [negb default].
  change (Qle_bool default_test_size 0 || Qle_bool 1 default_test_size) with false.
  cbv iota. rewrite <- Hlen, n_test_quarter.
  destruct (Nat.eqb_spec (length X - (length X + 3) / 4) 0) as [E | _]; [lia |].
  unfold ind_train, ind_test. rewrite (take_ge (drop _ _)); [done |].
  rewrite length_drop, length_permutation. lia.
Qed.

Lemma train_test_split_inv {A B} (X : list A) (y : list B) X_train X_test y_train y_test :
  train_test_split X y None 0 = Return (X_train, X_test, y_train, y_test) ->
  length X = length y /\ (length X + 3) / 4 < length X /\
  Forall2 (fun i x => X !! i = Some x) (ind_train (length X)) X_train /\
  Forall2 (fun i x => X !! i = Some x) (ind_test (length X)) X_test /\
  Forall2 (fun i x => y !! i = Some x) (ind_train (length X)) y_train /\
  Forall2 (fun i x => y !! i = Some x) (ind_test (length X)) y_test.
Proof.
  intros H.
  assert (Hlen : length X = length y).
  { unfold train_test_split in H. destruct (Nat.eqb_spec (length X) (length y)); done. }
  assert (Hn : (length X + 3) / 4 < length X).
  { unfold train_test_split in H. rewrite Hlen, Nat.eqb_refl in H. cbn [negb default] in H.
    change (Qle_bool default_test_size 0 || Qle_bool 1 default_test_size) with false in H.
    cbv iota in H. rewrite <- Hlen, n_test_quarter in H.
    destruct (Nat.eqb_spec (length X - (length X + 3) / 4) 0) as [E | E]; [done | lia]. }
  rewrite train_test_split_unfold in H by done.
  apply obind_Return_inv in H as (r1 & H1 & H).
  apply obind_Return_inv in H as (r2 & H2 & H).
  apply obind_Return_inv in H as (r3 & H3 & H).
  apply obind_Return_inv in H as (r4 & H4 & H).
  injection H as <- <- <- <-.
  repeat split; try done; by apply safe_indexing_inv.
Qed.


Lemma length_ind_test (n : nat) : (n + 3) / 4 < n -> length (ind_test n) = (n + 3) / 4.
Proof. intros H. unfold ind_test. rewrite length_take, length_permutation. lia. Qed.

Lemma length_ind_train (n : nat) : length (ind_train n) = n - (n + 3) / 4.
Proof. unfold ind_train. by rewrite length_drop, length_permutation. Qed.

(** Reading an array along a permutation of its positions rearranges it. *)
Lemma indexed_rearranged {A} (a : list A) (p : list nat) (r : list A) :
  p ≡ₚ seq 0 (length a) -> Forall2 (fun i x => a !! i = Some x) p r -> r ≡ₚ a.
Proof.
  intros Hp Hr.
  assert (Hgen : forall p p' : list nat, p ≡ₚ p' -> forall r,
            Forall2 (fun i x => a !! i = Some x) p r ->
            exists r', r ≡ₚ r' /\ Forall2 (fun i x => a !! i = Some x) p' r').
  { clear. induction 1 as [| i p p' _ IH | i j p | p p' p'' _ IH1 _ IH2]; intros r Hr.
    - exists r. done.
    - apply Forall2_cons_inv_l in Hr as (x & r0 & Hx & Hr0 & ->).
      destruct (IH _ Hr0) as (r' & Hperm & Hr').
      exists (x :: r'). split; [by constructor | by constructor].
    - apply Forall2_cons_inv_l in Hr as (x & r0 & Hx & Hr0 & ->).
      apply Forall2_cons_inv_l in Hr0 as (x' & r1 & Hx' & Hr1 & ->).
      exists (x' :: x :: r1). split; [apply Permutation_swap |].
      constructor; [exact Hx' | constructor; [exact Hx | exact Hr1]].
    - destruct (IH1 _ Hr) as (r' & Hperm & Hr').
      destruct (IH2 _ Hr') as (r'' & Hperm' & Hr'').
      exists r''. split; [by etrans | done]. }
  destruct (Hgen _ _ Hp _ Hr) as (r' & Hperm & Hr'). rewrite Hperm.
  replace r' with a; [done |].
  apply list_eq_same_length with (length a); [| done |].
  - apply Forall2_length in Hr'. by rewrite length_seq in Hr'.
  - intros k x x' Hk Hx Hx'.
    assert (Hseq : seq 0 (length a) !! k = Some k) by (by apply lookup_seq).
    destruct (Forall2_lookup_l _ _ _ _ _ Hr' Hseq) as (x'' & Hx'' & Ha).
    congruence.
Qed.

Lemma indexed_zip {A B} (a : list A) (b : list B) (p : list nat) ra rb :
  Forall2 (fun i x => a !! i = Some x) p ra ->
  Forall2 (fun i x => b !! i = Some x) p rb ->
  Forall2 (fun i x => zip a b !! i = Some x) p (zip ra rb).
Proof.
  intros Ha. revert rb. induction Ha as [| i x p ra Hx _ IH]; intros rb Hb.
  - apply Forall2_nil_inv_l in Hb as ->. constructor.
  - apply Forall2_cons_inv_l in Hb as (x' & rb' & Hx' & Hb' & ->).
    change (zip (x :: ra) (x' :: rb')) with ((x, x') :: zip ra rb').
    constructor; [| by apply IH].
    rewrite lookup_zip_with, Hx. cbn. by rewrite Hx'.
Qed.

End Split.

(** ** Fitting and predicting *)
Section Fitting.
Context `{L : Libs}.

Lemma as_documents_inv (col : list cell) (docs : list string) :
  as_documents col = Return docs -> col = CStr <$> docs.
Proof.
  revert docs. induction col as [| c rest IH]; intros docs H.
  - by injection H as <-.
  - cbn in H. apply obind_Return_inv in H as (doc & Hdoc & H).
    apply obind_Return_inv in H as (docs' & Hdocs' & H). injection H as <-.
    rewrite (IH _ Hdocs'). destruct c as [s | z | f]; cbn in Hdoc.
    + by injection Hdoc as ->.
    + done.
    + by destruct (PrimFloat.is_nan f).
Qed.


Lemma documents_strings (docs : list string) : documents (CStr <$> docs) = docs.
Proof. induction docs as [| doc docs IH]; [done |]. cbn. f_equal. exact IH. Qed.


Lemma fit_transform_inv (col : list cell) cv counts :
  fit_transform col = Return (cv, counts) ->
  col = CStr <$> documents col /\
  vocabulary_ cv = np_unique str_le (concat (map build_analyzer (documents col))) /\
  vocabulary_ cv <> [] /\
  counts = transform cv (documents col).
Proof.
  unfold fit_transform. intros H. apply obind_Return_inv in H as (docs & Hdocs & H).
  apply as_documents_inv in Hdocs as ->. rewrite documents_strings.
  destruct (np_unique str_le (concat (map build_analyzer docs))) as [| t ts] eqn:E; [done |].
  injection H as <- <-. cbn. done.
Qed.


Lemma omap_Forall2 {A B} (f : A -> option B) (l : list A) (k : list B) :
  Forall2 (fun a b => f a = Some b) l k -> omap f l = k.
Proof. induction 1 as [| a b l k Hab _ IH]; [done |]. cbn. by rewrite Hab, IH. Qed.

(** Accepted targets are the labels of the cells, one for each. *)
Lemma check_targets_inv (y : list cell) (ls : list label) :
  check_targets y = Return ls ->
  Forall2 (fun c l => label_of c = Some l) y ls /\ ls = labels y.
Proof.
  intros H.
  assert (HF : Forall2 (fun c l => label_of c = Some l) y ls).
  { destruct y as [| [s | z | f] rest]; cbn [check_targets] in H.
    - injection H as <-. constructor.
    - destruct (strings_of _) as [ss |] eqn:E; [| by destruct (existsb _ _)].
      injection H as <-. apply mapM_Some in E. apply Forall2_fmap_r.
      eapply Forall2_impl; [exact E |]. intros [s' | |] s''; [| done | done].
      by intros [= ->].
    - destruct (mapM _ _) as [ls' |] eqn:E; [| done]. injection H as <-.
      apply mapM_Some in E. eapply Forall2_impl; [exact E |].
      intros [| z' |] l; [done | | done]. by intros [= <-].
    - destruct (mapM _ _) as [ls' |] eqn:E; [| done]. injection H as <-.
      apply mapM_Some in E. eapply Forall2_impl; [exact E |].
      by intros [| | f'] l. }
  split; [done |]. symmetry. by apply omap_Forall2.
Qed.






Lemma length_transform (cv : CountVectorizer) (docs : list string) :
  map length (transform cv docs) = map (fun _ => length (vocabulary_ cv)) docs.
Proof.
  unfold transform. rewrite map_map. apply map_ext. intros doc. apply length_map.
Qed.

(** A document none of whose tokens is in the vocabulary counts zero in
    every column. *)
Lemma transform_unseen (cv : CountVectorizer) (doc : string) :
  (forall tok, tok ∈ build_analyzer doc -> tok ∉ vocabulary_ cv) ->
  transform cv [doc] = [replicate (length (vocabulary_ cv)) 0].
Proof.
  intros Hunseen. unfold transform. cbn [map]. f_equal.
  induction (vocabulary_ cv) as [| term terms IH] in Hunseen |- *; [done |].
  cbn [map length replicate]. f_equal.
  - apply count_occ_not_In. intros Hin. apply list_elem_of_In in Hin.
    apply (Hunseen term Hin). by left.
  - apply IH. intros tok Htok Hin. apply (Hunseen tok Htok). by right.
Qed.

Lemma lift_frame {A} (o : outcome A) (w w1 : World) r :
  lift o w = (w1, r) -> stdout w1 = stdout w /\ unwritable w1 = unwritable w.
Proof. unfold lift. by intros [= <- <-]. Qed.

Lemma np_random_randint_quiet : quiet np_random_randint.
Proof.
  intros w w1 r. unfold np_random_randint.
  destruct (randint (np_random w)) as [seed r']. by intros [= <- <-].
Qed.

Lemma LinearSVC_fit_inv (X : list (list float)) (y : list cell) w w1 m :
  LinearSVC_fit X y w = (w1, Return m) ->
  check_targets y = Return (labels y) /\
  classes_ m = np_unique label_le (labels y) /\
  fitted_shape m (length (hd [] X)) /\
  files w1 = files w /\ unwritable w1 = unwritable w /\ stdout w1 = stdout w.
Proof.
  unfold LinearSVC_fit.
  destruct (negb (length X =? length y)); [done |].
  intros H. apply bind_Return_inv in H as (w2 & targets & Htargets & H).
  apply lift_Return_inv in Htargets as [-> Htargets].
  pose proof (check_targets_inv _ _ Htargets) as [_ ->].
  destruct (Nat.ltb_spec (length (np_unique label_le (labels y))) 2) as [| Hk]; [done |].
  apply bind_Return_inv in H as (w2 & seed & Hseed & H).
  injection H as <- <-. cbn [classes_ coef_ intercept_].
  pose proof (liblinear_shape X (map (index_of (np_unique label_le (labels y))) (labels y)) seed)
    as Hshape.
  cbv zeta in Hshape. rewrite nr_class_np_unique in Hshape.
  destruct (Hshape Hk) as (HW & Hb & Hrows).
  unfold np_random_randint in Hseed.
  destruct (randint (np_random w)) as [seed' r']. injection Hseed as <- <-.
  repeat split; done.
Qed.

Lemma LinearSVC_fit_quiet X y : quiet (LinearSVC_fit X y).
Proof.
  intros w w1 r. unfold LinearSVC_fit, raise.
  destruct (negb (length X =? length y)); [by intros [= <- <-] |].
  intros H. apply bind_inv in H as [(w2 & targets & Htargets & H) | (e & Htargets & ->)];
    [| by apply lift_frame in Htargets].
  apply lift_frame in Htargets as [<- <-].
  destruct (length (np_unique label_le targets) <? 2); [by injection H as <- <- |].
  apply bind_inv in H as [(w3 & seed & Hseed & H) | (e & Hseed & ->)].
  - injection H as <- <-. by apply np_random_randint_quiet in Hseed.
  - by apply np_random_randint_quiet in Hseed.
Qed.


End Fitting.

(** ** Prediction on a fitted classifier *)
Section Predicting.

Lemma argmax_from_lt (ip : list float) (max_ind : nat) (mp : float) (i : nat) :
  max_ind < i -> argmax_from max_ind mp i ip < i + length ip.
Proof.
  revert max_ind mp i. induction ip as [| x rest IH]; intros max_ind mp i Hlt; cbn.
  - lia.
  - destruct (PrimFloat.leb x mp).
    + specialize (IH max_ind mp (S i)). lia.
    + destruct (PrimFloat.is_nan x); [lia |].
      specialize (IH i x (S i)). lia.
Qed.

Lemma argmax_lt (scores : list float) : scores <> [] -> argmax scores < length scores.
Proof.
  destruct scores as [| mp rest]; [done |]. intros _. cbn.
  destruct (PrimFloat.is_nan mp); [lia |].
  pose proof (argmax_from_lt rest 0 mp 1). lia.
Qed.

Lemma predict_index_lt (m : LinearSVC) (n_features : nat) (scores : list float) :
  fitted_shape m n_features -> length scores = length (coef_ m) ->
  predict_index scores < length (classes_ m).
Proof.
  intros (Hk & HW & _ & _) Hlen. rewrite HW in Hlen.
  destruct (Nat.eqb_spec (length (classes_ m)) 2) as [E | E].
  - destruct scores as [| s [| ? ?]]; try done. cbn.
    destruct (PrimFloat.ltb 0 s); lia.
  - assert (Hne : scores <> []) by (intros ->; cbn in Hlen; lia).
    pose proof (argmax_lt scores Hne) as Hlt.
    destruct scores as [| s [| s' rest]]; [done | cbn in Hlen; lia |].
    unfold predict_index. lia.
Qed.

Lemma coef_n_features (m : LinearSVC) (n_features : nat) :
  fitted_shape m n_features -> length (hd [] (coef_ m)) = n_features.
Proof.
  intros (Hk & HW & _ & Hrows).
  destruct (coef_ m) as [| w0 W].
  - cbn in HW. destruct (length (classes_ m) =? 2); lia.
  - cbn. by apply Forall_cons in Hrows as [? _].
Qed.

(** A fitted classifier answers one row of the right width with one of its
    classes. *)
Lemma predict_fitted (m : LinearSVC) (x : list nat) :
  fitted_shape m (length x) ->
  exists label, predict m [x] = Return [label] /\ label ∈ classes_ m.
Proof.
  intros Hshape. unfold predict, decision_function.
  rewrite (coef_n_features m (length x) Hshape). cbn [forallb].
  rewrite Nat.eqb_refl. cbn [andb map].
  change (@mbind outcome _ _ _ ?k (Return ?a)) with (k a). cbn [map].
  set (scores := zip_with _ (coef_ m) (intercept_ m)).
  assert (Hlen : length scores = length (coef_ m)).
  { subst scores. rewrite length_zip_with. destruct Hshape as (_ & _ & Hb & _). lia. }
  pose proof (predict_index_lt m (length x) scores Hshape Hlen) as Hlt.
  destruct (lookup_lt_is_Some_2 _ _ Hlt) as [label Hlabel].
  exists label. split.
  - cbn. unfold class_at. rewrite Hlabel. done.
  - by eapply list_elem_of_lookup_2.
Qed.

(** Anything [predict] answers is one of the classes. *)
Lemma take_classes_elem_of (m : LinearSVC) (indices : list nat) (answers : list label) :
  take_classes m indices = Return answers -> forall label, label ∈ answers -> label ∈ classes_ m.
Proof.
  revert answers. induction indices as [| i rest IH]; intros answers H label Hin.
  - injection H as <-. by apply elem_of_nil in Hin.
  - cbn in H. apply obind_Return_inv in H as (c & Hc & H).
    apply obind_Return_inv in H as (cs & Hcs & H). injection H as <-.
    apply elem_of_cons in Hin as [-> | Hin]; [| by eapply IH].
    unfold class_at in Hc. destruct (classes_ m !! i) as [c' |] eqn:E; [| done].
    injection Hc as ->. by eapply list_elem_of_lookup_2.
Qed.

Lemma predict_elem_of (m : LinearSVC) (X : list (list nat)) (answers : list label) :
  predict m X = Return answers -> forall label, label ∈ answers -> label ∈ classes_ m.
Proof.
  unfold predict. intros H. apply obind_Return_inv in H as (scores & _ & H).
  by eapply take_classes_elem_of.
Qed.

End Predicting.

(** ** Running the two functions *)
Section Running.
Context `{L : Libs}.

Lemma pickle_dumps_inj (a b : pyobj) : pickle_dumps a = pickle_dumps b -> a = b.
Proof.
  intros H. apply (f_equal pickle_loads) in H. rewrite !pickle_loads_dumps in H.
  by injection H.
Qed.

Lemma distinct_artifacts : clf_model_vectorizer_pickle_file <> clf_model_file.
Proof. discriminate. Qed.

(** The classifier on two files that hold pickled objects. *)
Lemma classify_utterance_loaded (utterance vectorizer_file model_file : string)
    (w : World) (vec mdl : pyobj) :
  files w !! vectorizer_file = Some (pickle_dumps vec) ->
  files w !! model_file = Some (pickle_dumps mdl) ->
  classify_utterance utterance vectorizer_file model_file w
  = (w, predict_utterance vec mdl utterance).
Proof.
  intros Hvec Hmdl. unfold classify_utterance, mbind, Py_bind, bind, open_rb, pickle_load, lift.
  rewrite Hvec, Hmdl, !pickle_loads_dumps.
  destruct (predict_utterance vec mdl utterance); done.
Qed.

Lemma quiet_bind {A B} (m : Py A) (k : A -> Py B) :
  quiet m -> (forall a, quiet (k a)) -> quiet (m ≫= k).
Proof.
  intros Hm Hk w w' r H.
  apply bind_inv in H as [(w1 & a & H1 & H) | (e & H1 & ->)].
  - destruct (Hm _ _ _ H1) as [<- <-]. by eapply Hk.
  - by eapply Hm.
Qed.

Lemma silent_failure_bind {A B} (m : Py A) (k : A -> Py B) :
  quiet m -> (forall a, silent_failure (k a)) -> silent_failure (m ≫= k).
Proof.
  intros Hm Hk w w' e H.
  apply bind_inv in H as [(w1 & a & H1 & H) | (e' & H1 & _)].
  - destruct (Hm _ _ _ H1) as [<- _]. by eapply Hk.
  - by eapply Hm.
Qed.

Lemma lift_quiet {A} (o : outcome A) : quiet (lift o).
Proof. intros w w1 r. unfold lift. by intros [= <- <-]. Qed.

Lemma read_json_quiet (arg : string) : quiet (read_json arg).
Proof. intros w w1 r. unfold read_json. by intros [= <- <-]. Qed.

Lemma open_wb_quiet (path : string) : quiet (open_wb path).
Proof.
  intros w w1 r. unfold open_wb.
  destruct (decide (path ∈ unwritable w)); by intros [= <- <-].
Qed.

Lemma pickle_dump_quiet (obj : pyobj) (fh : string) : quiet (pickle_dump obj fh).
Proof. intros w w1 r. unfold pickle_dump. by intros [= <- <-]. Qed.

Lemma print_never_raises (line : string) w w1 e : print line w <> (w1, Raise e).
Proof. unfold print. discriminate. Qed.

Lemma prints_never_raise (a b c : string) w w1 e :
  (print a;; print b;; print c) w <> (w1, Raise e).
Proof.
  unfold mbind, Py_bind, bind, print. discriminate.
Qed.

(** When the [try] suite raises, nothing has been printed. *)
Lemma train_body_silent_failure (arg : string) : silent_failure (train_body arg).
Proof.
  unfold train_body.
  apply silent_failure_bind; [apply read_json_quiet | intros df].
  apply silent_failure_bind; [apply lift_quiet | intros X].
  apply silent_failure_bind; [apply lift_quiet | intros y].
  apply silent_failure_bind; [apply lift_quiet | intros [[[X_train X_test] y_train] y_test]].
  apply silent_failure_bind; [apply lift_quiet | intros [count_vect X_train_counts]].
  apply silent_failure_bind; [apply LinearSVC_fit_quiet | intros model].
  apply silent_failure_bind; [apply open_wb_quiet | intros fh].
  apply silent_failure_bind; [apply pickle_dump_quiet | intros _].
  apply silent_failure_bind; [apply open_wb_quiet | intros fh'].
  apply silent_failure_bind; [apply pickle_dump_quiet | intros _].
  intros w w1 e H. by apply prints_never_raise in H.
Qed.

Lemma open_wb_Return_inv (path : string) w w1 fh :
  open_wb path w = (w1, Return fh) ->
  (path ∉ unwritable w) /\ fh = path /\ w1 = set_files (insert path blob_empty) w.
Proof.
  unfold open_wb. destruct (decide (path ∈ unwritable w)); [done |].
  by intros [= <- <-].
Qed.

(** What a completed [try] suite has computed and written. *)
Lemma train_body_completes (arg : string) (w w' : World) :
  train_body arg w = (w', Return None_) -> exists v, completes arg w w' v.
Proof.
  unfold train_body. intros H.
  apply bind_Return_inv in H as (w1 & df & Hdf & H).
  unfold read_json in Hdf. injection Hdf as <- Hdf.
  apply bind_Return_inv in H as (w1 & X & HX & H). apply lift_Return_inv in HX as [-> HX].
  apply bind_Return_inv in H as (w1 & y & Hy & H). apply lift_Return_inv in Hy as [-> Hy].
  apply bind_Return_inv in H as (w1 & [[[X_train X_test] y_train] y_test] & Hsplit & H).
  apply lift_Return_inv in Hsplit as [-> Hsplit].
  apply bind_Return_inv in H as (w1 & [count_vect X_train_counts] & Hcv & H).
  apply lift_Return_inv in Hcv as [-> Hcv].
  apply bind_Return_inv in H as (w1 & model & Hfit & H).
  destruct (LinearSVC_fit_inv _ _ _ _ _ Hfit) as (_ & _ & _ & Hf1 & Hu1 & Ho1).
  apply bind_Return_inv in H as (w2 & fh & Hopen & H).
  apply open_wb_Return_inv in Hopen as (Hw_vec & -> & ->).
  apply bind_Return_inv in H as (w3 & [] & Hdump & H).
  unfold pickle_dump in Hdump. injection Hdump as <-.
  apply bind_Return_inv in H as (w4 & fh' & Hopen' & H).
  apply open_wb_Return_inv in Hopen' as (Hw_mdl & -> & ->).
  apply bind_Return_inv in H as (w5 & [] & Hdump' & H).
  unfold pickle_dump in Hdump'. injection Hdump' as <-.
  unfold mbind, Py_bind, bind, print in H. injection H as <-.
  exists {| Locals.df := df; Locals.X := X; Locals.y := y;
            Locals.X_train := X_train; Locals.X_test := X_test;
            Locals.y_train := y_train; Locals.y_test := y_test;
            Locals.count_vect := count_vect; Locals.X_train_counts := X_train_counts;
            Locals.model := model |}.
  unfold completes. cbn in *. rewrite Hu1 in Hw_vec, Hw_mdl.
  repeat split; try done.
  - eauto.
  - rewrite Hf1. by rewrite !insert_insert_eq.
  - rewrite Ho1, <- !app_assoc. done.
Qed.


Lemma train_body_stages (arg : string) (w : World) :
  train_body arg w = (fit_stage arg ≫= save_stage) w.
Proof.
  unfold train_body, fit_stage, mbind, Py_bind, bind, read_json, lift.
  destruct (pd_read_json arg (files w)) as [df | e]; [| done].
  destruct (getitem df "utterance") as [X | e]; [| done].
  destruct (getitem df "intent") as [y | e]; [| done].
  destruct (train_test_split X y None 0) as [[[[X_train X_test] y_train] y_test] | e]; [| done].
  destruct (fit_transform X_train) as [[count_vect X_train_counts] | e]; [| done].
  destruct (LinearSVC_fit _ y_train w) as [w1 [model | e]]; done.
Qed.

Lemma LinearSVC_fit_files X y (w w1 : World) r :
  LinearSVC_fit X y w = (w1, r) -> files w1 = files w.
Proof.
  unfold LinearSVC_fit, raise.
  destruct (negb (length X =? length y)); [by intros [= <- _] |].
  unfold mbind, Py_bind, bind, lift.
  destruct (check_targets y) as [targets | e]; [| by intros [= <- _]].
  destruct (length (np_unique label_le targets) <? 2); [by intros [= <- _] |].
  unfold np_random_randint.
  destruct (randint (np_random w)) as [seed r']. by intros [= <- _].
Qed.

(** Fitting touches neither the files nor the console. *)
Lemma fit_stage_frame (arg : string) (w w1 : World) r :
  fit_stage arg w = (w1, r) ->
  files w1 = files w /\ unwritable w1 = unwritable w /\ stdout w1 = stdout w.
Proof.
  unfold fit_stage, mbind, Py_bind, bind, read_json, lift.
  destruct (pd_read_json arg (files w)) as [df | e]; [| by intros [= <- _]].
  destruct (getitem df "utterance") as [X | e]; [| by intros [= <- _]].
  destruct (getitem df "intent") as [y | e]; [| by intros [= <- _]].
  destruct (train_test_split X y None 0) as [[[[X_train X_test] y_train] y_test] | e];
    [| by intros [= <- _]].
  destruct (fit_transform X_train) as [[count_vect X_train_counts] | e];
    [| by intros [= <- _]].
  destruct (LinearSVC_fit _ y_train w) as [w2 r2] eqn:Hfit.
  pose proof (LinearSVC_fit_files _ _ _ _ _ Hfit) as Hfiles.
  pose proof (LinearSVC_fit_quiet _ _ _ _ _ Hfit) as [Hout Hro].
  destruct r2 as [model | e]; by intros [= <- _].
Qed.

(** [LinearSVC()] has no [random_state]: fitting draws one seed from
    numpy's global generator, once the targets have been accepted. *)
Lemma LinearSVC_fit_draw X y (w w1 : World) r :
  LinearSVC_fit X y w = (w1, r) ->
  np_random w1 = (if r is Return _ then snd (randint (np_random w)) else np_random w).
Proof.
  unfold LinearSVC_fit, raise.
  destruct (negb (length X =? length y)); [by intros [= <- <-] |].
  unfold mbind, Py_bind, bind, lift.
  destruct (check_targets y) as [targets | e]; [| by intros [= <- <-]].
  destruct (length (np_unique label_le targets) <? 2); [by intros [= <- <-] |].
  unfold np_random_randint.
  destruct (randint (np_random w)) as [seed r']. by intros [= <- <-].
Qed.

Lemma fit_stage_draw (arg : string) (w w1 : World) r :
  fit_stage arg w = (w1, r) ->
  np_random w1 = (if r is Return _ then snd (randint (np_random w)) else np_random w).
Proof.
  unfold fit_stage, mbind, Py_bind, bind, read_json, lift.
  destruct (pd_read_json arg (files w)) as [df | e]; [| by intros [= <- <-]].
  destruct (getitem df "utterance") as [X | e]; [| by intros [= <- <-]].
  destruct (getitem df "intent") as [y | e]; [| by intros [= <- <-]].
  destruct (train_test_split X y None 0) as [[[[X_train X_test] y_train] y_test] | e];
    [| by intros [= <- <-]].
  destruct (fit_transform X_train) as [[count_vect X_train_counts] | e];
    [| by intros [= <- <-]].
  destruct (LinearSVC_fit _ y_train w) as [w2 r2] eqn:Hfit.
  apply LinearSVC_fit_draw in Hfit.
  destruct r2 as [model | e]; by intros [= <- <-].
Qed.

(** Saving and reporting draw nothing. *)
Lemma save_stage_np_random (fitted : CountVectorizer * LinearSVC) (w w1 : World) r :
  save_stage fitted w = (w1, r) -> np_random w1 = np_random w.
Proof.
  unfold save_stage, mbind, Py_bind, bind, open_wb, pickle_dump, print.
  destruct (decide (clf_model_vectorizer_pickle_file ∈ unwritable w)); [by intros [= <- _] |].
  cbn. destruct (decide (clf_model_file ∈ unwritable w)); by intros [= <- _].
Qed.

(** The random state after the [try] suite: one seed has been drawn when
    the suite ran to its end, one or none when it raised. *)
Lemma train_body_draw (arg : string) (w w1 : World) r :
  train_body arg w = (w1, r) ->
  (returned r -> np_random w1 = snd (randint (np_random w))) /\
  (np_random w1 = np_random w \/ np_random w1 = snd (randint (np_random w))).
Proof.
  rewrite train_body_stages. intros H.
  apply bind_inv in H as [(w2 & fitted & Hfit & Hsave) | (e & Hfit & ->)].
  - apply fit_stage_draw in Hfit. apply save_stage_np_random in Hsave.
    rewrite Hsave, Hfit. by split; [| right].
  - apply fit_stage_draw in Hfit. by split; [| left].
Qed.

(** Success is visible on the console. *)
Lemma training_succeeded_iff (arg : string) (w w' : World) :
  training_succeeded arg w w' <-> train_body arg w = (w', Return None_).
Proof.
  unfold training_succeeded, train_linear_svc_model, try_except. split.
  - intros [Hrun Hout]. destruct (train_body arg w) as [w1 [[] | e]] eqn:Hbody.
    + by injection Hrun as ->.
    + exfalso. apply train_body_silent_failure in Hbody.
      unfold print in Hrun. injection Hrun as <-. cbn in Hout.
      rewrite Hbody in Hout. by apply app_inv_head in Hout.
  - intros Hbody. rewrite Hbody. split; [done |].
    apply train_body_completes in Hbody as (v & Hv). apply Hv.
Qed.

End Running.

(** ** After a completed run *)
Section Trained.
Context `{L : Libs}.
Implicit Types (v : Locals.t) (w : World).

Lemma completes_lengths arg w w' v :
  completes arg w w' v ->
  length (Locals.X v) = length (Locals.y v) /\
  (length (Locals.X v) + 3) / 4 < length (Locals.X v) /\
  length (Locals.X_test v) = (length (Locals.X v) + 3) / 4 /\
  length (Locals.X_train v) = length (Locals.X v) - (length (Locals.X v) + 3) / 4 /\
  length (Locals.y_test v) = length (Locals.X_test v) /\
  length (Locals.y_train v) = length (Locals.X_train v).
Proof.
  intros (_ & _ & _ & Hsplit & _).
  apply train_test_split_inv in Hsplit as (Hlen & Hn & Htr & Hte & Hytr & Hyte).
  apply Forall2_length in Htr, Hte, Hytr, Hyte.
  rewrite length_ind_train in Htr, Hytr. rewrite length_ind_test in Hte, Hyte by done.
  split_and!; lia.
Qed.

Lemma completes_y_train arg w w' v (c : cell) :
  completes arg w w' v -> c ∈ Locals.y_train v -> c ∈ Locals.y v.
Proof.
  intros (_ & _ & _ & Hsplit & _).
  apply train_test_split_inv in Hsplit as (_ & _ & _ & _ & Hytr & _).
  by eapply indexed_elem_of.
Qed.

Lemma completes_shape arg w w' v :
  completes arg w w' v ->
  classes_ (Locals.model v) = np_unique label_le (labels (Locals.y_train v)) /\
  fitted_shape (Locals.model v) (length (vocabulary_ (Locals.count_vect v))).
Proof.
  intros Hv. pose proof (completes_lengths _ _ _ _ Hv) as (_ & Hn & _ & Htrain & _).
  destruct Hv as (_ & _ & _ & _ & Hcv & (w1 & Hfit) & _).
  apply fit_transform_inv in Hcv as (Hcol & _ & _ & Hcounts).
  apply LinearSVC_fit_inv in Hfit as (_ & Hclasses & Hshape & _).
  split; [done |].
  replace (length (vocabulary_ (Locals.count_vect v)))
    with (length (hd [] (tfidf_fit_transform (Locals.X_train_counts v)))); [done |].
  pose proof (tfidf_shape (Locals.X_train_counts v)) as Hrows.
  rewrite Hcounts, length_transform in Hrows. rewrite Hcounts.
  apply (f_equal length) in Hcol. rewrite length_fmap in Hcol.
  destruct (documents (Locals.X_train v)) as [| doc docs]; [cbn [length] in Hcol; lia |].
  clear Hshape.
  destruct (tfidf_fit_transform _) as [| row rows]; cbn [map] in Hrows; [discriminate Hrows |].
  injection Hrows as Hrow _. exact Hrow.
Qed.

Lemma completes_files arg w w' v :
  completes arg w w' v ->
  files w' !! clf_model_vectorizer_pickle_file
    = Some (pickle_dumps (ObjCountVectorizer (Locals.count_vect v))) /\
  files w' !! clf_model_file = Some (pickle_dumps (ObjLinearSVC (Locals.model v))).
Proof.
  intros (_ & _ & _ & _ & _ & _ & _ & _ & -> & _). split.
  - rewrite lookup_insert_ne by (symmetry; apply distinct_artifacts).
    apply lookup_insert_eq.
  - apply lookup_insert_eq.
Qed.

(** The in-memory objects answer every utterance with a class. *)
Lemma predict_utterance_fitted (cv : CountVectorizer) (m : LinearSVC) (utterance : string) :
  fitted_shape m (length (vocabulary_ cv)) ->
  exists label,
    predict m (transform cv [utterance]) = Return [label] /\
    predict_utterance (ObjCountVectorizer cv) (ObjLinearSVC m) utterance
    = Return (str label) /\
    label ∈ classes_ m.
Proof.
  intros Hshape. unfold predict_utterance. cbn [get_predict get_transform].
  change (@mbind outcome _ _ _ ?k (Return ?a)) with (k a). cbv beta.
  change (@mbind outcome _ _ _ ?k (Return ?a)) with (k a). cbv beta.
  unfold transform. cbn [map].
  set (x := map _ (vocabulary_ cv)).
  assert (Hx : length x = length (vocabulary_ cv)) by apply length_map.
  rewrite <- Hx in Hshape.
  destruct (predict_fitted m x Hshape) as (label & -> & Hlabel).
  exists label. done.
Qed.

Lemma predict_utterance_elem_of (vec mdl : pyobj) (utterance intent : string) :
  predict_utterance vec mdl utterance = Return intent ->
  exists cv m label,
    vec = ObjCountVectorizer cv /\ mdl = ObjLinearSVC m /\
    label ∈ classes_ m /\ intent = str label.
Proof.
  unfold predict_utterance. destruct mdl as [cv | m | t]; [done | | done].
  destruct vec as [cv | m' | t]; [| done | done]. cbn [get_predict get_transform].
  change (@mbind outcome _ _ _ ?k (Return ?a)) with (k a). cbv beta.
  change (@mbind outcome _ _ _ ?k (Return ?a)) with (k a). cbv beta.
  intros H. apply obind_Return_inv in H as (raw_intent & Hpred & H).
  apply obind_Return_inv in H as (label & Hitem & H). injection H as <-.
  exists cv, m, label. split_and!; [done | done | | done].
  eapply predict_elem_of; [exact Hpred |].
  destruct raw_intent as [| l ls]; [done |]. injection Hitem as ->. by left.
Qed.

Lemma completes_classify arg w w' v (utterance : string) :
  completes arg w w' v ->
  classify_trained utterance w'
  = (w', predict_utterance (ObjCountVectorizer (Locals.count_vect v))
                           (ObjLinearSVC (Locals.model v)) utterance) /\
  exists label,
    predict (Locals.model v) (transform (Locals.count_vect v) [utterance]) = Return [label] /\
    classify_trained utterance w' = (w', Return (str label)) /\
    label ∈ labels (Locals.y_train v).
Proof.
  intros Hv. destruct (completes_files _ _ _ _ Hv) as [Hvec Hmdl].
  destruct (completes_shape _ _ _ _ Hv) as [Hclasses Hshape].
  unfold classify_trained. rewrite (classify_utterance_loaded _ _ _ _ _ _ Hvec Hmdl).
  split; [done |].
  destruct (predict_utterance_fitted _ _ utterance Hshape) as (label & Hpred & -> & Hlabel).
  exists label. split_and!; [done | done |].
  rewrite Hclasses in Hlabel. exact (proj1 (elem_of_np_unique _ _ _) Hlabel).
Qed.

(** The training columns of a completed run: the utterances are strings,
    and every intent cell has a label. *)
Lemma completes_columns arg w w' v :
  completes arg w w' v ->
  Locals.X_train v = CStr <$> documents (Locals.X_train v) /\
  Forall2 (fun c l => label_of c = Some l) (Locals.y_train v) (labels (Locals.y_train v)).
Proof.
  intros (_ & _ & _ & _ & Hcv & (w1 & Hfit) & _).
  apply fit_transform_inv in Hcv as (Hcol & _).
  apply LinearSVC_fit_inv in Hfit as (Hcheck & _).
  split; [done |]. by apply check_targets_inv in Hcheck as [? _].
Qed.

End Trained.

(** ** Failures of the trainer *)
Section Failures.
Context `{L : Libs}.

Lemma getitem_no_examples (df : DataFrame) (key : string) (col : Series) :
  no_examples df -> getitem df key = Return col -> col = [].
Proof.
  induction 1 as [| [name c] rest Hc _ IH]; cbn; [done |].
  destruct (String.eqb name key); [| done]. intros [= <-]. exact Hc.
Qed.

Lemma train_test_split_empty {B} (y : list B) (test_size : option Q) (seed : Z) :
  exists e, train_test_split (@nil cell) y test_size seed = Raise e.
Proof.
  unfold train_test_split. destruct (negb (length [] =? length y)); [eauto |].
  destruct (Qle_bool _ 0 || Qle_bool 1 _); [eauto |].
  cbn [length]. rewrite Nat.sub_0_l, Nat.eqb_refl. eauto.
Qed.

(** A run either completes or fails. *)
Lemma training_failed_iff (arg : string) (w : World) :
  training_failed arg w <-> ~ exists w', train_body arg w = (w', Return None_).
Proof.
  unfold training_failed. split.
  - intros (w1 & e & H) (w' & H'). congruence.
  - intros Hnot. destruct (train_body arg w) as [w1 [[] | e]] eqn:E; [| eauto].
    exfalso. eauto.
Qed.

(** Malformed input: the file does not parse, or a column is missing. *)
Lemma failed_of_malformed (arg : string) (w : World) :
  (forall df, pd_read_json arg (files w) = Return df ->
     ~ returned (getitem df "utterance") \/ ~ returned (getitem df "intent")) ->
  training_failed arg w.
Proof.
  intros Hbad. apply training_failed_iff. intros (w' & H).
  apply train_body_completes in H as (v & Hdf & HX & Hy & _).
  destruct (Hbad _ Hdf) as [Hn | Hn]; apply Hn; [by rewrite HX | by rewrite Hy].
Qed.

(** The suite on a frame without examples raises in the world it started in. *)
Lemma train_body_no_examples (arg : string) (w : World) (df : DataFrame) :
  pd_read_json arg (files w) = Return df -> no_examples df ->
  exists e, train_body arg w = (w, Raise e).
Proof.
  intros Hdf Hempty. unfold train_body.
  erewrite bind_Return; [| unfold read_json; by rewrite Hdf].
  destruct (getitem df "utterance") as [X | e] eqn:HX;
    [| exists e; by erewrite bind_Raise].
  erewrite bind_Return; [| reflexivity].
  destruct (getitem df "intent") as [y | e] eqn:Hy;
    [| exists e; by erewrite bind_Raise].
  erewrite bind_Return; [| reflexivity].
  apply (getitem_no_examples _ _ _ Hempty) in HX as ->.
  destruct (train_test_split_empty y None 0) as [e He].
  exists e. erewrite bind_Raise; [done |]. unfold lift. by rewrite He.
Qed.

Lemma failed_of_no_examples (arg : string) (w : World) (df : DataFrame) :
  pd_read_json arg (files w) = Return df -> no_examples df -> training_failed arg w.
Proof.
  intros Hdf Hempty. destruct (train_body_no_examples _ _ _ Hdf Hempty) as [e He].
  exists w, e. done.
Qed.

(** An artifact that cannot be written. *)
Lemma failed_of_unwritable (arg : string) (w : World) :
  clf_model_vectorizer_pickle_file ∈ unwritable w \/ clf_model_file ∈ unwritable w ->
  training_failed arg w.
Proof.
  intros Hro. apply training_failed_iff. intros (w' & H).
  apply train_body_completes in H as (v & _ & _ & _ & _ & _ & _ & Hvec & Hmdl & _).
  destruct Hro; done.
Qed.

Lemma failure_reported (arg : string) (w : World) :
  training_failed arg w ->
  exists w', train_linear_svc_model arg w = (w', Return None_) /\
             stdout w' = stdout w ++ [error].
Proof.
  intros (w1 & e & Hbody). unfold train_linear_svc_model, try_except. rewrite Hbody.
  eexists. split; [reflexivity |]. cbn.
  by rewrite (train_body_silent_failure _ _ _ _ Hbody).
Qed.

End Failures.

(** ** Error handling of the two functions *)
Section ErrorHandling.
Context `{L : Libs}.

(** C5 — Trainer failure policy.  Malformed input (the data does not
    parse, or lacks a column), an empty training set and an artifact that
    cannot be written
    each make the [try] suite fail; and whenever the suite fails, at
    whatever step and with whatever exception, the failure is caught and
    reported in one and the same way: the call returns after printing the
    single line "Error training classification model". *)
Theorem C5_failure_policy (arg : string) (w : World) :
  ((exists e, pd_read_json arg (files w) = Raise e) \/
   (exists df key, pd_read_json arg (files w) = Return df /\
                   (key = "utterance" \/ key = "intent") /\
                   getitem df key = Raise (KeyError key)) \/
   (exists df, pd_read_json arg (files w) = Return df /\ no_examples df) \/
   clf_model_vectorizer_pickle_file ∈ unwritable w \/
   clf_model_file ∈ unwritable w ->
   training_failed arg w) /\
  (training_failed arg w ->
   exists w', train_linear_svc_model arg w = (w', Return None_) /\
              stdout w' = stdout w ++ [error]).
Proof.
  split; [| apply failure_reported].
  intros [(e & He) | [(df & key & Hdf & Hkey & Hmiss) | [(df & Hdf & Hempty) | Hro]]].
  - apply failed_of_malformed. intros df Hdf. congruence.
  - apply failed_of_malformed. intros df' Hdf'.
    assert (df' = df) as -> by congruence.
    destruct Hkey as [-> | ->]; [left | right]; rewrite Hmiss; exact id.
  - by eapply failed_of_no_examples.
  - by apply failed_of_unwritable.
Qed.

(** C6, as amended — Missing artifact.  When no file exists at the
    vectorizer path, [classify_utterance] lets the built-in
    [FileNotFoundError] of [open] escape for that path, whatever the
    utterance and the model path; no label is returned and the world is
    left as it was.  No error class of the program's own is raised. *)
Theorem C6_missing_artifact (utterance vectorizer_file model_file : string) (w : World) :
  files w !! vectorizer_file = None ->
  classify_utterance utterance vectorizer_file model_file w
  = (w, Raise (FileNotFoundError vectorizer_file)).
Proof.
  intros Hmissing. unfold classify_utterance.
  apply bind_Raise. unfold open_rb. by rewrite Hmissing.
Qed.

(** C7, as amended — Empty input.  On a frame without examples the trainer
    raises nothing: it prints the generic error line and returns [None];
    no file is written, so no degenerate model is produced. *)
Theorem C7_empty_input (arg : string) (w : World) (df : DataFrame) :
  pd_read_json arg (files w) = Return df ->
  no_examples df ->
  train_linear_svc_model arg w
  = (set_stdout (fun out => out ++ [error]) w, Return None_).
Proof.
  intros Hdf Hempty. destruct (train_body_no_examples _ _ _ Hdf Hempty) as [e He].
  unfold train_linear_svc_model, try_except. by rewrite He.
Qed.

(** C9, as amended — The trainer never raises.  Every call returns [None].
    A completed run has printed the three completion lines and has drawn
    one seed from numpy's global generator; a failed run has printed the
    error line and has drawn one seed or none.  The return value is the
    same in both cases: the console, the files and the random state are
    where the two differ. *)
Theorem C9_never_raises (arg : string) (w : World) :
  exists w', train_linear_svc_model arg w = (w', Return None_) /\
             ((stdout w' = stdout w ++ training_completed /\
               np_random w' = snd (randint (np_random w))) \/
              (stdout w' = stdout w ++ [error] /\
               (np_random w' = np_random w \/
                np_random w' = snd (randint (np_random w))))).
Proof.
  destruct (train_body arg w) as [w1 [[] | e]] eqn:Hbody.
  - exists w1. pose proof (train_body_draw _ _ _ _ Hbody) as [Hdraw _].
    apply training_succeeded_iff in Hbody as [Hrun Hout]. split; [done |]. left.
    split; [done |]. by apply Hdraw.
  - pose proof (train_body_draw _ _ _ _ Hbody) as [_ Hdraw].
    exists (set_stdout (fun out => out ++ [error]) w1). split.
    + unfold train_linear_svc_model, try_except. by rewrite Hbody.
    + right. split; [| exact Hdraw]. cbn.
      by rewrite (train_body_silent_failure _ _ _ _ Hbody).
Qed.

End ErrorHandling.

Section ErrorHandlingRuns.
Import Sample SampleRuns.

Lemma C5_witness :
  exists w', train_linear_svc_model "classification_data.json" world_readonly_model
             = (w', Return None_) /\
             stdout w' = stdout world_readonly_model ++ [error].
Proof.
  apply (C5_failure_policy "classification_data.json" world_readonly_model).
  apply (C5_failure_policy "classification_data.json" world_readonly_model).
  right. right. right. right. apply elem_of_singleton. reflexivity.
Defined.

Lemma C6_witness :
  classify_utterance "hey whats up Virtual Assistant"
    "model_vectorizer.pickle" "classification.model" world0
  = (world0, Raise (FileNotFoundError "model_vectorizer.pickle")).
Proof.
  apply (C6_missing_artifact _ "model_vectorizer.pickle" _ world0).
  vm_compute. reflexivity.
Defined.

(** C6, as stated, fails: on a missing vectorizer file the exception that
    reaches the caller is not of a class the program defines, such as a
    [LoadError]. *)
Lemma C6_counterexample :
  ~ exists class_name,
      snd (classify_utterance "hey whats up Virtual Assistant"
             "model_vectorizer.pickle" "classification.model" world0)
      = Raise (UserDefined class_name).
Proof. intros [class_name H]. vm_compute in H. discriminate H. Qed.

(** C9, as stated, fails: started under the same random state, a run that
    succeeds and a run that fails leave numpy's global generator in
    different states. *)
Lemma C9_counterexample :
  np_random world0 = np_random world_empty /\
  returned (snd (train_linear_svc_model "classification_data.json" world0))
  = returned (snd (train_linear_svc_model "classification_data.json" world_empty)) /\
  np_random (fst (train_linear_svc_model "classification_data.json" world0))
  <> np_random (fst (train_linear_svc_model "classification_data.json" world_empty)).
Proof. split_and!; [reflexivity | reflexivity | vm_compute; discriminate]. Qed.

(** C7, as stated, fails: on a data file without any example the call
    does not fail with an exception. *)
Lemma C7_counterexample :
  ~ exists e, snd (train_linear_svc_model "classification_data.json" world_empty) = Raise e.
Proof. intros [e He]. vm_compute in He. discriminate He. Qed.

Lemma C7_witness :
  train_linear_svc_model "classification_data.json" world_empty
  = (set_stdout (fun out => out ++ [error]) world_empty, Return None_).
Proof.
  apply (C7_empty_input "classification_data.json" world_empty []).
  - vm_compute. reflexivity.
  - constructor.
Defined.

End ErrorHandlingRuns.

(** ** Training, then classifying *)
Section Pipeline.
Context `{L : Libs}.

Lemma succeeded_completes (arg : string) (w w' : World) :
  training_succeeded arg w w' -> exists v, completes arg w w' v.
Proof. intros H. by apply train_body_completes, training_succeeded_iff. Qed.

Lemma elem_of_labels (col : Series) (label : label) :
  label ∈ labels col <-> exists c, c ∈ col /\ label_of c = Some label.
Proof. apply list_elem_of_omap. Qed.

Lemma str_of_string_cell (intents : list string) (c : cell) (label : label) :
  c ∈ CStr <$> intents -> label_of c = Some label -> str label ∈ intents.
Proof.
  intros Hc Hlabel. apply list_elem_of_fmap in Hc as (s & -> & Hs).
  injection Hlabel as <-. exact Hs.
Qed.

(** After a successful run every utterance is answered with the label of
    a cell of the [intent] column. *)
Lemma classify_trained_label (arg : string) (w w' : World) (df : DataFrame) (y : Series)
    (utterance : string) :
  training_succeeded arg w w' ->
  pd_read_json arg (files w) = Return df ->
  getitem df "intent" = Return y ->
  exists v c label,
    completes arg w w' v /\
    predict (Locals.model v) (transform (Locals.count_vect v) [utterance]) = Return [label] /\
    classify_trained utterance w' = (w', Return (str label)) /\
    c ∈ y /\ label_of c = Some label.
Proof.
  intros Hrun Hdf Hy. destruct (succeeded_completes _ _ _ Hrun) as [v Hv].
  destruct (completes_classify _ _ _ _ utterance Hv) as (_ & label & Hpred & Hclassify & Hin).
  apply elem_of_labels in Hin as (c & Hc & Hlabel).
  exists v, c, label. split_and!; try done.
  pose proof (completes_y_train _ _ _ _ _ Hv Hc) as Hiny.
  destruct Hv as (Hdf' & _ & Hy' & _). congruence.
Qed.

(** C1, as amended — Label closure.  After a successful training run,
    classifying any utterance with the two artifacts it wrote returns
    without raising, and what it returns is [str] of the label of a cell
    of the [intent] column as [pd.read_json] has read it.  When that
    column holds strings, the returned string is one of the intents of the
    data; when it was read as numbers, the returned string is the number
    written out. *)
Theorem C1_label_closure (arg : string) (w w' : World) (df : DataFrame) (y : Series)
    (utterance : string) :
  training_succeeded arg w w' ->
  pd_read_json arg (files w) = Return df ->
  getitem df "intent" = Return y ->
  exists c label,
    c ∈ y /\ label_of c = Some label /\
    classify_trained utterance w' = (w', Return (str label)) /\
    (forall intents, y = CStr <$> intents -> str label ∈ intents).
Proof.
  intros Hrun Hdf Hy.
  destruct (classify_trained_label _ _ _ _ _ utterance Hrun Hdf Hy)
    as (v & c & label & _ & _ & Hc & Hin & Hlabel).
  exists c, label. split_and!; try done.
  intros intents ->. by eapply str_of_string_cell.
Qed.

(** C2, as amended — Unseen-token tolerance.  After a successful training
    run, for an utterance none of whose tokens is in the vocabulary of the
    persisted vectorizer, the feature vector is zero in every column; the
    call does not raise: it returns [str] of what the persisted classifier
    predicts for that zero vector, which is the label of a cell of the
    [intent] column as [pd.read_json] has read it, and one of the intents
    of the data when that column holds strings. *)
Theorem C2_unseen_token_tolerance (arg : string) (w w' : World) (df : DataFrame)
    (y : Series) (cv : CountVectorizer) (utterance : string) :
  training_succeeded arg w w' ->
  pd_read_json arg (files w) = Return df ->
  getitem df "intent" = Return y ->
  files w' !! clf_model_vectorizer_pickle_file = Some (pickle_dumps (ObjCountVectorizer cv)) ->
  Forall (fun tok => tok ∉ vocabulary_ cv) (build_analyzer utterance) ->
  transform cv [utterance] = [replicate (length (vocabulary_ cv)) 0] /\
  exists m c label,
    files w' !! clf_model_file = Some (pickle_dumps (ObjLinearSVC m)) /\
    predict m [replicate (length (vocabulary_ cv)) 0] = Return [label] /\
    classify_trained utterance w' = (w', Return (str label)) /\
    c ∈ y /\ label_of c = Some label /\
    (forall intents, y = CStr <$> intents -> str label ∈ intents).
Proof.
  intros Hrun Hdf Hy Hcv Hunseen.
  assert (Hzero : transform cv [utterance] = [replicate (length (vocabulary_ cv)) 0]).
  { apply transform_unseen. intros tok Htok.
    by apply (proj1 (Forall_forall _ _) Hunseen). }
  split; [done |].
  destruct (classify_trained_label _ _ _ _ _ utterance Hrun Hdf Hy)
    as (v & c & label & Hv & Hpred & Hc & Hin & Hlabel).
  destruct (completes_files _ _ _ _ Hv) as [Hvec Hmdl].
  assert (Hsame : Locals.count_vect v = cv).
  { rewrite Hcv in Hvec. injection Hvec as Hvec. apply pickle_dumps_inj in Hvec.
    by injection Hvec. }
  rewrite Hsame, Hzero in Hpred.
  exists (Locals.model v), c, label. split_and!; try done.
  intros intents ->. by eapply str_of_string_cell.
Qed.

End Pipeline.

(** ** Artifacts and the partition *)
Section Artifacts.
Context `{L : Libs}.

(** C3 — Serialization round-trip.  After a successful training run the
    two artifact files unpickle to the vectorizer and the classifier that
    the run held in memory, and classifying any probe utterance from the
    files gives exactly what those in-memory objects answer. *)
Theorem C3_round_trip (arg : string) (w w' : World) :
  training_succeeded arg w w' ->
  exists v vec_content mdl_content,
    completes arg w w' v /\
    files w' !! clf_model_vectorizer_pickle_file = Some vec_content /\
    pickle_loads vec_content = Return (ObjCountVectorizer (Locals.count_vect v)) /\
    files w' !! clf_model_file = Some mdl_content /\
    pickle_loads mdl_content = Return (ObjLinearSVC (Locals.model v)) /\
    forall probe,
      classify_trained probe w'
      = (w', predict_utterance (ObjCountVectorizer (Locals.count_vect v))
                               (ObjLinearSVC (Locals.model v)) probe).
Proof.
  intros Hrun. destruct (succeeded_completes _ _ _ Hrun) as [v Hv].
  destruct (completes_files _ _ _ _ Hv) as [Hvec Hmdl].
  exists v, (pickle_dumps (ObjCountVectorizer (Locals.count_vect v))),
    (pickle_dumps (ObjLinearSVC (Locals.model v))).
  split_and!; try done; try apply pickle_loads_dumps.
  intros probe. by destruct (completes_classify _ _ _ _ probe Hv) as [-> _].
Qed.

Lemma completes_partition arg w w' (v : Locals.t) :
  completes arg w w' v ->
  zip (Locals.X_test v) (Locals.y_test v) ++ zip (Locals.X_train v) (Locals.y_train v)
  ≡ₚ zip (Locals.X v) (Locals.y v).
Proof.
  intros (_ & _ & _ & Hsplit & _).
  apply train_test_split_inv in Hsplit as (Hlen & Hn & Htr & Hte & Hytr & Hyte).
  apply indexed_rearranged with (permutation 0 (length (Locals.X v))).
  - rewrite length_zip_with, <- Hlen, Nat.min_id. apply permutation_spec.
  - rewrite <- ind_test_train. apply Forall2_app; by apply indexed_zip.
Qed.

(** C8, as amended — Train/test partition.  A successful run has split the
    examples by [train_test_split] with the default ratio and the seed 0,
    both fixed in the body: of [n] examples, [ceil (n / 4)] are held out
    (those at the first positions of the permutation drawn with seed 0)
    and the others are trained on, the two subsets together being a
    rearrangement of the examples; the vocabulary and the classes come
    from the training subset alone. *)
Theorem C8_partition (arg : string) (w w' : World) :
  training_succeeded arg w w' ->
  exists v,
    completes arg w w' v /\
    train_test_split (Locals.X v) (Locals.y v) None 0
      = Return (Locals.X_train v, Locals.X_test v, Locals.y_train v, Locals.y_test v) /\
    length (Locals.X_test v) = (length (Locals.X v) + 3) / 4 /\
    length (Locals.X_train v) = length (Locals.X v) - (length (Locals.X v) + 3) / 4 /\
    Forall2 (fun i xy => zip (Locals.X v) (Locals.y v) !! i = Some xy)
            (ind_test (length (Locals.X v)))
            (zip (Locals.X_test v) (Locals.y_test v)) /\
    Forall2 (fun i xy => zip (Locals.X v) (Locals.y v) !! i = Some xy)
            (ind_train (length (Locals.X v)))
            (zip (Locals.X_train v) (Locals.y_train v)) /\
    zip (Locals.X_test v) (Locals.y_test v) ++ zip (Locals.X_train v) (Locals.y_train v)
      ≡ₚ zip (Locals.X v) (Locals.y v) /\
    vocabulary_ (Locals.count_vect v)
      = np_unique str_le (concat (map build_analyzer (documents (Locals.X_train v)))) /\
    classes_ (Locals.model v) = np_unique label_le (labels (Locals.y_train v)).
Proof.
  intros Hrun. destruct (succeeded_completes _ _ _ Hrun) as [v Hv].
  exists v. pose proof (completes_lengths _ _ _ _ Hv) as (_ & _ & Hte & Htr & _).
  pose proof (completes_partition _ _ _ _ Hv) as Hperm.
  pose proof (completes_shape _ _ _ _ Hv) as [Hclasses _].
  pose proof Hv as (_ & _ & _ & Hsplit & Hcv & _).
  apply fit_transform_inv in Hcv as (_ & Hvocab & _).
  pose proof (train_test_split_inv _ _ _ _ _ _ Hsplit) as (_ & _ & Hxtr & Hxte & Hytr & Hyte).
  split_and!; try done; by apply indexed_zip.
Qed.

(** The classifier fitted depends on the world only through numpy's
    random state. *)
Lemma LinearSVC_fit_np_random X y (w1 w2 : World) :
  np_random w1 = np_random w2 ->
  snd (LinearSVC_fit X y w1) = snd (LinearSVC_fit X y w2).
Proof.
  intros Hrng. unfold LinearSVC_fit, raise.
  destruct (negb (length X =? length y)); [done |].
  unfold mbind, Py_bind, bind, lift. destruct (check_targets y) as [targets | e]; [| done].
  destruct (length (np_unique label_le targets) <? 2); [done |].
  unfold np_random_randint. rewrite Hrng.
  destruct (randint (np_random w2)) as [seed r]. done.
Qed.

(** Two completed runs on the same frame, under the same random state,
    hold the same objects. *)
Lemma completes_deterministic arg1 arg2 (w1 w2 w1' w2' : World) (v1 v2 : Locals.t) :
  pd_read_json arg1 (files w1) = pd_read_json arg2 (files w2) ->
  np_random w1 = np_random w2 ->
  completes arg1 w1 w1' v1 -> completes arg2 w2 w2' v2 ->
  Locals.count_vect v1 = Locals.count_vect v2 /\ Locals.model v1 = Locals.model v2.
Proof.
  intros Hread Hrng (Hdf1 & HX1 & Hy1 & Hs1 & Hcv1 & (u1 & Hfit1) & _)
                    (Hdf2 & HX2 & Hy2 & Hs2 & Hcv2 & (u2 & Hfit2) & _).
  rewrite Hread, Hdf2 in Hdf1. injection Hdf1 as Hdf. rewrite <- Hdf in HX1, Hy1.
  rewrite HX2 in HX1. injection HX1 as HX. rewrite Hy2 in Hy1. injection Hy1 as Hy.
  rewrite <- HX, <- Hy, Hs2 in Hs1. injection Hs1 as Hxtr Hxte Hytr Hyte.
  rewrite <- Hxtr, Hcv2 in Hcv1. injection Hcv1 as Hcv Hcounts.
  split; [done |].
  pose proof (LinearSVC_fit_np_random
                (tfidf_fit_transform (Locals.X_train_counts v1)) (Locals.y_train v1)
                w1 w2 Hrng) as Hfit.
  rewrite Hfit1 in Hfit. rewrite <- Hcounts, <- Hytr, Hfit2 in Hfit. cbn in Hfit.
  by injection Hfit.
Qed.

End Artifacts.

(** C8, as stated, fails: the ratio and the seed of the split are not
    configuration.  Whatever the libraries, no two successful calls that
    read the same examples under the same random state write different
    artifacts, so no argument and no part of the world selects the
    partition. *)
Lemma C8_counterexample : ~ exists L : Libs, @split_configurable L.
Proof.
  intros (L & arg1 & arg2 & w1 & w2 & w1' & w2' & Hread & Hrng & Hrun1 & Hrun2 & Hdiff).
  destruct (succeeded_completes _ _ _ Hrun1) as [v1 Hv1].
  destruct (succeeded_completes _ _ _ Hrun2) as [v2 Hv2].
  destruct (completes_deterministic _ _ _ _ _ _ _ _ Hread Hrng Hv1 Hv2) as [Hcv Hm].
  destruct (completes_files _ _ _ _ Hv1) as [Hvec1 Hmdl1].
  destruct (completes_files _ _ _ _ Hv2) as [Hvec2 Hmdl2].
  destruct Hdiff as [Hdiff | Hdiff]; apply Hdiff; congruence.
Qed.

(** ** The labels a trained classifier can answer *)
Section HeldOut.
Context `{L : Libs}.






End HeldOut.

(** ** The notebook's session, replayed *)
Section Session.
Import Sample SampleRuns.

Lemma session_succeeded :
  training_succeeded "classification_data.json" world0 trained_world.
Proof. split; vm_compute; reflexivity. Defined.

(** Of the seven examples two are held out and five are trained on. *)
Example session_split :
  train_test_split (A := string) (B := string)
    ["u0"; "u1"; "u2"; "u3"; "u4"; "u5"; "u6"] ["i0"; "i1"; "i2"; "i3"; "i4"; "i5"; "i6"]
    None 0
  = Return (["u4"; "u3"; "u2"; "u1"; "u0"], ["u6"; "u5"],
            ["i4"; "i3"; "i2"; "i1"; "i0"], ["i6"; "i5"]).
Proof. vm_compute. reflexivity. Qed.

Example session_tokens :
  build_analyzer "hey whats up Virtual Assistant"
  = ["hey"; "whats"; "up"; "virtual"; "assistant"].
Proof. vm_compute. reflexivity. Qed.

(** The prediction printed in the notebook (lines 283 and 291-294). *)
Example session_greeting :
  classify_utterance "hey whats up Virtual Assistant"
    "model_vectorizer.pickle" "classification.model" trained_world
  = (trained_world, Return "greeting").
Proof. vm_compute. reflexivity. Qed.

(** When the second artifact cannot be written, the first one has been:
    the error line is printed, the vectorizer file exists and the model
    file does not. *)
Example session_partial_artifacts :
  let w' := fst (train_linear_svc_model "classification_data.json" world_readonly_model) in
  stdout w' = [error] /\
  files w' !! clf_model_vectorizer_pickle_file
    = Some (pickle_dumps (ObjCountVectorizer trained_count_vect)) /\
  files w' !! clf_model_file = None.
Proof. split_and!; vm_compute; reflexivity. Qed.

Lemma C1_witness :
  exists c label,
    c ∈ CStr <$> (fst <$> classification_data) /\
    label_of c = Some label /\
    classify_trained "hey whats up Virtual Assistant" trained_world
    = (trained_world, Return (str label)) /\
    (forall intents,
       CStr <$> (fst <$> classification_data) = CStr <$> intents -> str label ∈ intents).
Proof.
  apply (C1_label_closure "classification_data.json" world0 trained_world
           classification_frame).
  - exact session_succeeded.
  - vm_compute. reflexivity.
  - vm_compute. reflexivity.
Defined.

(** C1, as stated, fails: when the intents of the data are written as
    numerals, training succeeds and the classifier answers with a string
    that is none of them. *)
Lemma C1_counterexample :
  training_succeeded "numbered.json" world_numbered trained_numbered /\
  files world_numbered !! "numbered.json" = Some (BJson numbered_data) /\
  classify_trained "book a haircut" trained_numbered = (trained_numbered, Return "1") /\
  "1" ∉ (fst <$> numbered_data).
Proof.
  split_and!; [split; vm_compute; reflexivity | reflexivity | vm_compute; reflexivity |].
  apply (bool_decide_unpack _). by vm_compute.
Qed.

Lemma C2_witness :
  transform trained_count_vect ["qqqzzzunknown"]
  = [replicate (length (vocabulary_ trained_count_vect)) 0] /\
  exists m c label,
    files trained_world !! clf_model_file = Some (pickle_dumps (ObjLinearSVC m)) /\
    predict m [replicate (length (vocabulary_ trained_count_vect)) 0] = Return [label] /\
    classify_trained "qqqzzzunknown" trained_world = (trained_world, Return (str label)) /\
    c ∈ CStr <$> (fst <$> classification_data) /\
    label_of c = Some label /\
    (forall intents,
       CStr <$> (fst <$> classification_data) = CStr <$> intents -> str label ∈ intents).
Proof.
  apply (C2_unseen_token_tolerance "classification_data.json" world0 trained_world
           classification_frame).
  - exact session_succeeded.
  - vm_compute. reflexivity.
  - vm_compute. reflexivity.
  - vm_compute. reflexivity.
  - apply (bool_decide_unpack _). vm_compute. exact I.
Defined.

(** C2, as stated, fails: when the intents of the data are written as
    numerals, an utterance of unseen tokens only is answered, but with a
    string that is no intent of the data. *)
Lemma C2_counterexample :
  exists cv intent,
    training_succeeded "numbered.json" world_numbered trained_numbered /\
    files trained_numbered !! clf_model_vectorizer_pickle_file
      = Some (pickle_dumps (ObjCountVectorizer cv)) /\
    Forall (fun tok => tok ∉ vocabulary_ cv) (build_analyzer "qqqzzzunknown") /\
    classify_trained "qqqzzzunknown" trained_numbered = (trained_numbered, Return intent) /\
    intent ∉ (fst <$> numbered_data).
Proof.
  exists {| vocabulary_ := [ "book"; "haircut"; "hours"; "manicure"; "massage"; "opening";
                             "shave"; "today"; "tomorrow" ] |}, "1".
  split_and!; [split; vm_compute; reflexivity | vm_compute; reflexivity | |
               vm_compute; reflexivity |];
    apply (bool_decide_unpack _); by vm_compute.
Qed.

Lemma C3_witness :
  exists v vec_content mdl_content,
    completes "classification_data.json" world0 trained_world v /\
    files trained_world !! clf_model_vectorizer_pickle_file = Some vec_content /\
    pickle_loads vec_content = Return (ObjCountVectorizer (Locals.count_vect v)) /\
    files trained_world !! clf_model_file = Some mdl_content /\
    pickle_loads mdl_content = Return (ObjLinearSVC (Locals.model v)) /\
    forall probe,
      classify_trained probe trained_world
      = (trained_world,
         predict_utterance (ObjCountVectorizer (Locals.count_vect v))
                           (ObjLinearSVC (Locals.model v)) probe).
Proof.
  apply (C3_round_trip "classification_data.json" world0 trained_world).
  exact session_succeeded.
Defined.

Lemma C8_witness :
  exists v,
    completes "classification_data.json" world0 trained_world v /\
    train_test_split (Locals.X v) (Locals.y v) None 0
      = Return (Locals.X_train v, Locals.X_test v, Locals.y_train v, Locals.y_test v) /\
    length (Locals.X_test v) = (length (Locals.X v) + 3) / 4 /\
    length (Locals.X_train v) = length (Locals.X v) - (length (Locals.X v) + 3) / 4 /\
    Forall2 (fun i xy => zip (Locals.X v) (Locals.y v) !! i = Some xy)
            (ind_test (length (Locals.X v)))
            (zip (Locals.X_test v) (Locals.y_test v)) /\
    Forall2 (fun i xy => zip (Locals.X v) (Locals.y v) !! i = Some xy)
            (ind_train (length (Locals.X v)))
            (zip (Locals.X_train v) (Locals.y_train v)) /\
    zip (Locals.X_test v) (Locals.y_test v) ++ zip (Locals.X_train v) (Locals.y_train v)
      ≡ₚ zip (Locals.X v) (Locals.y v) /\
    vocabulary_ (Locals.count_vect v)
      = np_unique str_le (concat (map build_analyzer (documents (Locals.X_train v)))) /\
    classes_ (Locals.model v) = np_unique label_le (labels (Locals.y_train v)).
Proof.
  apply (C8_partition "classification_data.json" world0 trained_world).
  exact session_succeeded.
Defined.



End Session.

(** * Further properties of the two functions *)

(** ** The classifier on arbitrary artifacts *)
Section Classifier.
Context `{L : Libs}.

(** X2 — Missing model artifact.  When the vectorizer file unpickles but
    no file exists at the model path, [classify_utterance] raises
    [FileNotFoundError] for the model path. *)
Theorem X2_missing_model (utterance vectorizer_file model_file : string) (w : World)
    (vec_content : blob) (vec : pyobj) :
  files w !! vectorizer_file = Some vec_content ->
  pickle_loads vec_content = Return vec ->
  files w !! model_file = None ->
  classify_utterance utterance vectorizer_file model_file w
  = (w, Raise (FileNotFoundError model_file)).
Proof.
  intros Hvec Hload Hmdl.
  unfold classify_utterance, mbind, Py_bind, bind, open_rb, pickle_load, lift.
  by rewrite Hvec, Hload, Hmdl.
Qed.

(** X3 — Corrupt artifacts.  The exception raised by unpickling either
    file reaches the caller as it is: for the vectorizer file before the
    model path is even opened, for the model file once the vectorizer has
    been loaded. *)
Theorem X3_corrupt_artifact (utterance vectorizer_file model_file : string) (w : World)
    (vec_content : blob) (e : exn) :
  files w !! vectorizer_file = Some vec_content ->
  (pickle_loads vec_content = Raise e \/
   exists vec mdl_content,
     pickle_loads vec_content = Return vec /\
     files w !! model_file = Some mdl_content /\
     pickle_loads mdl_content = Raise e) ->
  classify_utterance utterance vectorizer_file model_file w = (w, Raise e).
Proof.
  intros Hvec Hbad.
  unfold classify_utterance, mbind, Py_bind, bind, open_rb, pickle_load, lift.
  rewrite Hvec. destruct Hbad as [Hload | (vec & mdl_content & Hload & Hmdl & Hload')].
  - by rewrite Hload.
  - by rewrite Hload, Hmdl, Hload'.
Qed.

(** X4 — Artifacts of the wrong kind.  When the model file holds a
    vectorizer, the call raises [AttributeError] for [predict], whatever
    the vectorizer file holds; when the model file holds a classifier but
    the vectorizer file holds a classifier too, it raises
    [AttributeError] for [transform]. *)
Theorem X4_wrong_kind (utterance vectorizer_file model_file : string) (w : World)
    (vec_content mdl_content : blob) (vec mdl : pyobj) :
  files w !! vectorizer_file = Some vec_content ->
  pickle_loads vec_content = Return vec ->
  files w !! model_file = Some mdl_content ->
  pickle_loads mdl_content = Return mdl ->
  (forall cv, mdl = ObjCountVectorizer cv ->
     classify_utterance utterance vectorizer_file model_file w
     = (w, Raise (AttributeError "predict"))) /\
  (forall m m', mdl = ObjLinearSVC m -> vec = ObjLinearSVC m' ->
     classify_utterance utterance vectorizer_file model_file w
     = (w, Raise (AttributeError "transform"))).
Proof.
  intros Hvec Hload Hmdl Hload'.
  unfold classify_utterance, mbind, Py_bind, bind, open_rb, pickle_load, lift.
  rewrite Hvec, Hload, Hmdl, Hload'. split.
  - by intros cv ->.
  - by intros m m' -> ->.
Qed.

(** X5 — Artifacts of different widths.  When the vocabulary of the loaded
    vectorizer has another size than the rows of [coef_] of the loaded
    classifier, the call raises [ValueError]; no label is returned. *)
Theorem X5_feature_mismatch (utterance vectorizer_file model_file : string) (w : World)
    (vec_content mdl_content : blob) (cv : CountVectorizer) (m : LinearSVC) :
  files w !! vectorizer_file = Some vec_content ->
  pickle_loads vec_content = Return (ObjCountVectorizer cv) ->
  files w !! model_file = Some mdl_content ->
  pickle_loads mdl_content = Return (ObjLinearSVC m) ->
  length (vocabulary_ cv) <> length (hd [] (coef_ m)) ->
  exists msg,
    classify_utterance utterance vectorizer_file model_file w = (w, Raise (ValueError msg)).
Proof.
  intros Hvec Hload Hmdl Hload' Hwidth.
  unfold classify_utterance, mbind, Py_bind, bind, open_rb, pickle_load, lift.
  rewrite Hvec, Hload, Hmdl, Hload'.
  unfold predict_utterance. cbn [get_predict get_transform].
  change (@mbind outcome _ _ _ ?k (Return ?a)) with (k a). cbv beta.
  change (@mbind outcome _ _ _ ?k (Return ?a)) with (k a). cbv beta.
  unfold predict, decision_function, transform. cbn [map forallb].
  rewrite length_map.
  destruct (Nat.eqb_spec (length (vocabulary_ cv)) (length (hd [] (coef_ m)))) as [E | _];
    [done |].
  cbn. eauto.
Qed.

(** X6 — Label closure on any vectorizer and classifier.  When the two
    files unpickle to a vectorizer and a classifier, of whatever origin,
    and [classify_utterance] returns, what it returns is [str] of one of
    the [classes_] of that classifier, and the vocabulary has as many
    terms as the rows of [coef_] have columns. *)
Theorem X6_label_of_loaded_model (utterance vectorizer_file model_file : string)
    (w w' : World) (vec_content mdl_content : blob) (cv : CountVectorizer) (m : LinearSVC)
    (intent : string) :
  files w !! vectorizer_file = Some vec_content ->
  pickle_loads vec_content = Return (ObjCountVectorizer cv) ->
  files w !! model_file = Some mdl_content ->
  pickle_loads mdl_content = Return (ObjLinearSVC m) ->
  classify_utterance utterance vectorizer_file model_file w = (w', Return intent) ->
  exists label,
    label ∈ classes_ m /\
    intent = str label /\
    length (vocabulary_ cv) = length (hd [] (coef_ m)).
Proof.
  intros Hvec Hload Hmdl Hload'.
  unfold classify_utterance, mbind, Py_bind, bind, open_rb, pickle_load, lift, mret, Py_ret, ret.
  rewrite Hvec, Hload, Hmdl, Hload'.
  destruct (predict_utterance _ _ utterance) as [answer | e] eqn:Hpred; [| done].
  intros [= _ <-].
  pose proof (predict_utterance_elem_of _ _ _ _ Hpred)
    as (cv' & m' & label & [= <-] & [= <-] & Hin & ->).
  exists label. split_and!; [done | done |].
  unfold predict_utterance in Hpred. cbn [get_predict get_transform] in Hpred.
  change (@mbind outcome _ _ _ ?k (Return ?a)) with (k a) in Hpred. cbv beta in Hpred.
  change (@mbind outcome _ _ _ ?k (Return ?a)) with (k a) in Hpred. cbv beta in Hpred.
  unfold predict, decision_function, transform in Hpred. cbn [map forallb] in Hpred.
  rewrite length_map in Hpred.
  destruct (Nat.eqb_spec (length (vocabulary_ cv)) (length (hd [] (coef_ m)))); done.
Qed.

Lemma count_occ_filter (P : string -> Prop) `{forall x, Decision (P x)}
    (l : list string) (x : string) :
  P x -> count_occ string_dec (filter P l) x = count_occ string_dec l x.
Proof.
  intros Hx. induction l as [| a l IH]; [done |].
  rewrite filter_cons. destruct (decide (P a)) as [Ha | Ha]; cbn.
  - destruct (string_dec a x); by rewrite IH.
  - destruct (string_dec a x) as [-> | _]; done.
Qed.

Lemma transform_known_tokens (cv : CountVectorizer) (u u' : string) :
  known_tokens cv u ≡ₚ known_tokens cv u' -> transform cv [u] = transform cv [u'].
Proof.
  intros Hperm. unfold transform. cbn [map]. f_equal.
  apply map_ext_in. intros term Hterm. apply list_elem_of_In in Hterm.
  rewrite <- (count_occ_filter (fun tok => tok ∈ vocabulary_ cv) (build_analyzer u)) by done.
  rewrite <- (count_occ_filter (fun tok => tok ∈ vocabulary_ cv) (build_analyzer u')) by done.
  by apply Permutation_count_occ.
Qed.

(** X7 — Bag of known words.  The answer depends on the utterance only
    through the tokens that are in the vocabulary of the loaded vectorizer,
    counted without order: two utterances whose known tokens are
    rearrangements of each other get the same outcome, so word order and
    unknown words never matter. *)
Theorem X7_bag_of_known_words (u u' vectorizer_file model_file : string) (w : World)
    (vec_content : blob) (cv : CountVectorizer) :
  files w !! vectorizer_file = Some vec_content ->
  pickle_loads vec_content = Return (ObjCountVectorizer cv) ->
  known_tokens cv u ≡ₚ known_tokens cv u' ->
  classify_utterance u vectorizer_file model_file w
  = classify_utterance u' vectorizer_file model_file w.
Proof.
  intros Hvec Hload Hperm.
  unfold classify_utterance, mbind, Py_bind, bind, open_rb, pickle_load, lift.
  rewrite Hvec, Hload.
  destruct (files w !! model_file) as [mdl_content |]; [| done].
  destruct (pickle_loads mdl_content) as [mdl | e]; [| done].
  assert (Hsame : predict_utterance (ObjCountVectorizer cv) mdl u
                  = predict_utterance (ObjCountVectorizer cv) mdl u').
  { unfold predict_utterance. destruct mdl as [cv' | m | t]; [done | | done].
    cbn [get_predict get_transform].
    change (@mbind outcome _ _ _ ?k (Return ?a)) with (k a). cbv beta.
    change (@mbind outcome _ _ _ ?k (Return ?a)) with (k a). cbv beta.
    by rewrite (transform_known_tokens cv u u' Hperm). }
  by rewrite Hsame.
Qed.

End Classifier.

(** ** What the trainer writes *)
Section TrainerFiles.
Context `{L : Libs}.

(** How saving can fail: at the first file, with nothing written, or at
    the second, with the vectorizer written. *)
Lemma save_stage_Raise (fitted : CountVectorizer * LinearSVC) (w w1 : World) e :
  save_stage fitted w = (w1, Raise e) ->
  (w1 = w /\ clf_model_vectorizer_pickle_file ∈ unwritable w) \/
  (files w1 = <[clf_model_vectorizer_pickle_file :=
                  pickle_dumps (ObjCountVectorizer (fst fitted))]> (files w) /\
   (clf_model_vectorizer_pickle_file ∉ unwritable w) /\
   clf_model_file ∈ unwritable w).
Proof.
  unfold save_stage, mbind, Py_bind, bind, open_wb, pickle_dump, print.
  destruct (decide (clf_model_vectorizer_pickle_file ∈ unwritable w)) as [Hvec | Hvec].
  - intros [= <- _]. by left.
  - cbn. destruct (decide (clf_model_file ∈ unwritable w)) as [Hmdl | Hmdl]; [| done].
    intros [= <- _]. right. cbn. by rewrite insert_insert_eq.
Qed.

(** The files after a suite that raised. *)
Lemma train_body_Raise_files (arg : string) (w w1 : World) e :
  train_body arg w = (w1, Raise e) ->
  files w1 = files w \/
  ((clf_model_vectorizer_pickle_file ∉ unwritable w) /\
   clf_model_file ∈ unwritable w /\
   exists w2 cv m,
     fit_stage arg w = (w2, Return (cv, m)) /\
     files w1 = <[clf_model_vectorizer_pickle_file :=
                    pickle_dumps (ObjCountVectorizer cv)]> (files w)).
Proof.
  rewrite train_body_stages. intros H.
  apply bind_inv in H as [(w2 & [cv m] & Hfit & Hsave) | (e' & Hfit & _)].
  - pose proof (fit_stage_frame _ _ _ _ Hfit) as (Hfiles & Hro & _).
    apply save_stage_Raise in Hsave as [[-> _] | (Hw1 & Hvec & Hmdl)]; [by left |].
    right. rewrite Hro in Hvec, Hmdl. rewrite Hfiles in Hw1.
    split_and!; [done | done |]. by exists w2, cv, m.
  - apply fit_stage_frame in Hfit as (Hfiles & _). by left.
Qed.

Lemma train_files_cases (arg : string) (w : World) :
  let w' := fst (train_linear_svc_model arg w) in
  train_body arg w = (w', Return None_) \/
  (training_failed arg w /\
   (files w' = files w \/
    ((clf_model_vectorizer_pickle_file ∉ unwritable w) /\
     clf_model_file ∈ unwritable w /\
     exists w2 cv m,
       fit_stage arg w = (w2, Return (cv, m)) /\
       files w' = <[clf_model_vectorizer_pickle_file :=
                      pickle_dumps (ObjCountVectorizer cv)]> (files w)))).
Proof.
  cbv zeta. unfold train_linear_svc_model, try_except.
  destruct (train_body arg w) as [w1 [[] | e]] eqn:Hbody.
  - by left.
  - right. split; [by exists w1, e |]. cbn. by eapply train_body_Raise_files.
Qed.

(** X8 — The trainer touches two paths only.  Whether a call succeeds or
    fails, every file at a path other than [model_vectorizer.pickle] and
    [classification.model] is afterwards what it was before. *)
Theorem X8_only_artifacts_written (arg path : string) (w : World) :
  path <> clf_model_vectorizer_pickle_file ->
  path <> clf_model_file ->
  files (fst (train_linear_svc_model arg w)) !! path = files w !! path.
Proof.
  intros Hvec Hmdl.
  destruct (train_files_cases arg w) as [Hbody | [_ [-> | (_ & _ & w2 & cv & m & _ & ->)]]].
  - apply train_body_completes in Hbody as (v & _ & _ & _ & _ & _ & _ & _ & _ & -> & _).
    by rewrite !lookup_insert_ne.
  - done.
  - by rewrite lookup_insert_ne.
Qed.

(** X9 — The files after a failed call.  When training fails, either no
    file has changed, or the model path is unwritable and exactly the
    vectorizer file has been replaced, by the vectorizer that this call
    has fitted, while the model file is what it was: the two artifacts may
    then come from different runs. *)
Theorem X9_files_after_failure (arg : string) (w : World) :
  training_failed arg w ->
  let w' := fst (train_linear_svc_model arg w) in
  files w' = files w \/
  (clf_model_file ∈ unwritable w /\
   files w' !! clf_model_file = files w !! clf_model_file /\
   exists w1 cv m,
     fit_stage arg w = (w1, Return (cv, m)) /\
     files w' = <[clf_model_vectorizer_pickle_file :=
                    pickle_dumps (ObjCountVectorizer cv)]> (files w)).
Proof.
  intros Hfailed. cbv zeta.
  destruct (train_files_cases arg w)
    as [Hbody | [_ [Hsame | (_ & Hmdl & w1 & cv & m & Hfit & Hw')]]].
  - destruct Hfailed as (w1 & e & Hraise). congruence.
  - by left.
  - right. split_and!; [done | | by exists w1, cv, m].
    rewrite Hw'. apply lookup_insert_ne, distinct_artifacts.
Qed.

End TrainerFiles.

(** ** Training that fails, and classifying afterwards *)
Section AfterFailure.
Context `{L : Libs}.

(** The classifier sees the world through its files only. *)
Lemma classify_utterance_files (utterance vectorizer_file model_file : string)
    (w1 w2 : World) :
  files w1 = files w2 ->
  snd (classify_utterance utterance vectorizer_file model_file w1)
  = snd (classify_utterance utterance vectorizer_file model_file w2).
Proof.
  intros Hfiles.
  unfold classify_utterance, mbind, Py_bind, bind, open_rb, pickle_load, lift, mret, Py_ret, ret.
  rewrite Hfiles.
  destruct (files w2 !! vectorizer_file) as [vec_content |]; [| done].
  destruct (pickle_loads vec_content) as [vec | e]; [| done].
  rewrite Hfiles.
  destruct (files w2 !! model_file) as [mdl_content |]; [| done].
  destruct (pickle_loads mdl_content) as [mdl | e]; [| done].
  destruct (predict_utterance vec mdl utterance); done.
Qed.

(** X10 — Classifying after a failed first training.  The trainer reports
    a failure on the console only; when neither artifact existed before
    the failed call, classifying afterwards raises [FileNotFoundError],
    for the vectorizer path or, when only the model could not be written,
    for the model path. *)
Theorem X10_classify_after_failed_training (arg : string) (w : World) :
  training_failed arg w ->
  files w !! clf_model_vectorizer_pickle_file = None ->
  files w !! clf_model_file = None ->
  let w' := fst (train_linear_svc_model arg w) in
  exists path,
    (path = clf_model_vectorizer_pickle_file \/ path = clf_model_file) /\
    forall utterance,
      classify_trained utterance w' = (w', Raise (FileNotFoundError path)).
Proof.
  intros Hfailed Hvec Hmdl. cbv zeta.
  destruct (train_files_cases arg w)
    as [Hbody | [_ [Hsame | (_ & _ & w2 & cv & m & _ & Hw')]]].
  - destruct Hfailed as (w1 & e & Hraise). congruence.
  - exists clf_model_vectorizer_pickle_file. split; [by left |]. intros utterance.
    unfold classify_trained, classify_utterance. apply bind_Raise.
    unfold open_rb. by rewrite Hsame, Hvec.
  - exists clf_model_file. split; [by right |]. intros utterance.
    unfold classify_trained, classify_utterance.
    erewrite bind_Return;
      [| unfold open_rb; rewrite Hw', lookup_insert_eq; reflexivity].
    erewrite bind_Return;
      [| unfold pickle_load, lift; rewrite pickle_loads_dumps; reflexivity].
    apply bind_Raise. unfold open_rb.
    rewrite Hw', lookup_insert_ne by apply distinct_artifacts. by rewrite Hmdl.
Qed.

(** X11 — Earlier artifacts survive a failed retraining.  When training
    fails although the model path is writable, no file has changed, so
    every later classification, with whatever paths, has the outcome it
    had before the call: artifacts of an earlier run stay in use. *)
Theorem X11_failed_retraining_keeps_artifacts (arg : string) (w : World) :
  training_failed arg w ->
  clf_model_file ∉ unwritable w ->
  let w' := fst (train_linear_svc_model arg w) in
  files w' = files w /\
  forall utterance vectorizer_file model_file,
    snd (classify_utterance utterance vectorizer_file model_file w')
    = snd (classify_utterance utterance vectorizer_file model_file w).
Proof.
  intros Hfailed Hmdl. cbv zeta.
  assert (Hsame : files (fst (train_linear_svc_model arg w)) = files w).
  { destruct (train_files_cases arg w) as [Hbody | [_ [Hsame | (_ & Hro & _)]]]; [| done | done].
    destruct Hfailed as (w1 & e & Hraise). congruence. }
  split; [done |]. intros utterance vectorizer_file model_file.
  by apply classify_utterance_files.
Qed.

Lemma length_np_unique_le {A} `{EqDecision A} (le : relation A) `{!RelDecision le}
    (a b : list A) :
  (forall x, x ∈ a -> x ∈ b) -> length (np_unique le a) <= length b.
Proof.
  intros Hsub. apply submseteq_length, NoDup_submseteq; [apply NoDup_np_unique |].
  intros x Hx. apply Hsub. exact (proj1 (elem_of_np_unique le a x) Hx).
Qed.

Lemma no_tokens_no_vocabulary (docs : list string) :
  Forall (fun doc => build_analyzer doc = []) docs ->
  concat (map build_analyzer docs) = [].
Proof.
  induction 1 as [| doc docs Hdoc _ IH]; [done |]. cbn. by rewrite Hdoc, IH.
Qed.

Lemma elem_of_documents (col : Series) (doc : string) :
  doc ∈ documents col <-> CStr doc ∈ col.
Proof.
  unfold documents. rewrite list_elem_of_omap. split.
  - by intros ([s | z | f] & Hc & [= ->]).
  - intros Hc. by exists (CStr doc).
Qed.

(** X12 — Data the trainer cannot learn from.  Training fails (with the
    generic report) whenever the data has fewer than three examples, or
    fewer than two distinct intents, or no utterance with a token: the
    training subset must show two classes and a non-empty vocabulary. *)
Theorem X12_too_little_data (arg : string) (w : World) (df : DataFrame) (X y : Series) :
  pd_read_json arg (files w) = Return df ->
  getitem df "utterance" = Return X ->
  getitem df "intent" = Return y ->
  length X < 3 \/
  length (np_unique label_le (labels y)) < 2 \/
  Forall (fun doc => build_analyzer doc = []) (documents X) ->
  training_failed arg w.
Proof.
  intros Hdf HX Hy Hlittle. apply training_failed_iff. intros (w' & Hbody).
  apply train_body_completes in Hbody as (v & Hv).
  pose proof (completes_lengths _ _ _ _ Hv) as (_ & _ & _ & Htrain & _ & Hytrain).
  pose proof (completes_shape _ _ _ _ Hv) as (Hclasses & Hk & _).
  rewrite Hclasses in Hk.
  pose proof Hv as (Hdf' & HX' & Hy' & Hsplit & Hcv & _).
  assert (Locals.df v = df) as Edf by congruence. rewrite Edf in HX', Hy'.
  assert (Locals.X v = X) as EX by congruence.
  assert (Locals.y v = y) as Ey by congruence.
  rewrite EX in Htrain.
  apply train_test_split_inv in Hsplit as (_ & _ & Hxtr & _ & Hytr & _).
  destruct Hlittle as [Hfew | [Hone | Hnotok]].
  - pose proof (length_np_unique_le label_le (labels (Locals.y_train v))
                  (labels (Locals.y_train v)) (fun _ H => H)) as Hle.
    pose proof (completes_columns _ _ _ _ Hv) as [_ Hlabels].
    apply Forall2_length in Hlabels.
    destruct (length X) as [| [| [| n]]]; cbn in Htrain; lia.
  - assert (Hle : length (np_unique label_le (labels (Locals.y_train v)))
                  <= length (np_unique label_le (labels y))); [| lia].
    apply length_np_unique_le. intros x Hx. apply elem_of_np_unique.
    apply elem_of_labels in Hx as (c & Hc & Hlabel). apply elem_of_labels.
    exists c. split; [| done]. rewrite <- Ey. by eapply indexed_elem_of.
  - apply fit_transform_inv in Hcv as (_ & Hvocab & Hne & _). apply Hne. rewrite Hvocab.
    rewrite no_tokens_no_vocabulary; [done |].
    apply Forall_forall. intros doc Hdoc.
    apply (proj1 (Forall_forall _ _) Hnotok). apply elem_of_documents.
    apply elem_of_documents in Hdoc. rewrite <- EX. by eapply indexed_elem_of.
Qed.



End AfterFailure.

(** ** When training succeeds *)
Section SuccessCriterion.
Context `{L : Libs}.



Lemma indexed_position {A} (a : list A) (p : list nat) (r : list A) (x : A) :
  Forall2 (fun i x => a !! i = Some x) p r -> x ∈ r -> exists i, i ∈ p /\ a !! i = Some x.
Proof.
  intros Hr Hx. apply list_elem_of_lookup in Hx as [k Hk].
  destruct (Forall2_lookup_r _ _ _ _ _ Hr Hk) as (i & Hi & Hai).
  exists i. split; [by eapply list_elem_of_lookup_2 | done].
Qed.

Lemma position_indexed {A} (a : list A) (p : list nat) (r : list A) (i : nat) :
  Forall2 (fun i x => a !! i = Some x) p r -> i ∈ p -> exists x, x ∈ r /\ a !! i = Some x.
Proof.
  intros Hr Hi. apply list_elem_of_lookup in Hi as [k Hk].
  destruct (Forall2_lookup_l _ _ _ _ _ Hr Hk) as (x & Hx & Hai).
  exists x. split; [by eapply list_elem_of_lookup_2 | done].
Qed.


End SuccessCriterion.

(** ** Further runs on the sample instantiation *)
Section MoreSession.
Import Sample SampleRuns MoreRuns.

Lemma X2_witness :
  classify_utterance "hey whats up Virtual Assistant"
    clf_model_vectorizer_pickle_file clf_model_file world_vectorizer_only
  = (world_vectorizer_only, Raise (FileNotFoundError clf_model_file)).
Proof.
  apply (X2_missing_model _ _ _ world_vectorizer_only
           (BPickle (ObjCountVectorizer trained_count_vect))
           (ObjCountVectorizer trained_count_vect)).
  - vm_compute. reflexivity.
  - vm_compute. reflexivity.
  - vm_compute. reflexivity.
Defined.

Lemma X3_witness :
  classify_utterance "hey whats up Virtual Assistant"
    clf_model_vectorizer_pickle_file clf_model_file world_corrupt
  = (world_corrupt, Raise UnpicklingError).
Proof.
  apply (X3_corrupt_artifact _ _ _ world_corrupt (BText "not a pickle")).
  - vm_compute. reflexivity.
  - left. vm_compute. reflexivity.
Defined.

Lemma X4_witness :
  classify_utterance "hey whats up Virtual Assistant"
    clf_model_file clf_model_vectorizer_pickle_file trained_world
  = (trained_world, Raise (AttributeError "predict")).
Proof.
  refine (proj1 (X4_wrong_kind _ clf_model_file clf_model_vectorizer_pickle_file trained_world
                   (BPickle (ObjLinearSVC trained_model))
                   (BPickle (ObjCountVectorizer trained_count_vect))
                   (ObjLinearSVC trained_model)
                   (ObjCountVectorizer trained_count_vect) _ _ _ _)
                trained_count_vect eq_refl);
    vm_compute; reflexivity.
Defined.

Lemma X5_witness :
  exists msg,
    classify_utterance "hey whats up Virtual Assistant"
      clf_model_vectorizer_pickle_file clf_model_file world_mismatch
    = (world_mismatch, Raise (ValueError msg)).
Proof.
  apply (X5_feature_mismatch _ _ _ world_mismatch
           (BPickle (ObjCountVectorizer {| vocabulary_ := ["up"; "whats"] |}))
           (BPickle (ObjLinearSVC trained_model))
           {| vocabulary_ := ["up"; "whats"] |} trained_model).
  - vm_compute. reflexivity.
  - vm_compute. reflexivity.
  - vm_compute. reflexivity.
  - vm_compute. reflexivity.
  - vm_compute. discriminate.
Defined.

Lemma X6_witness :
  exists label,
    label ∈ classes_ trained_model /\
    "greeting" = str label /\
    length (vocabulary_ trained_count_vect) = length (hd [] (coef_ trained_model)).
Proof.
  apply (X6_label_of_loaded_model "hey whats up Virtual Assistant"
           clf_model_vectorizer_pickle_file clf_model_file
           trained_world trained_world
           (BPickle (ObjCountVectorizer trained_count_vect))
           (BPickle (ObjLinearSVC trained_model))
           trained_count_vect trained_model "greeting");
    vm_compute; reflexivity.
Defined.

Lemma X7_witness :
  classify_utterance "hey whats up Virtual Assistant"
    clf_model_vectorizer_pickle_file clf_model_file trained_world
  = classify_utterance "Up, whats that?"
      clf_model_vectorizer_pickle_file clf_model_file trained_world.
Proof.
  apply (X7_bag_of_known_words _ _ _ _ trained_world
           (BPickle (ObjCountVectorizer trained_count_vect)) trained_count_vect).
  - vm_compute. reflexivity.
  - vm_compute. reflexivity.
  - vm_compute. apply Permutation_swap.
Defined.

Lemma X8_witness :
  files (fst (train_linear_svc_model "classification_data.json" world0))
    !! "classification_data.json"
  = files world0 !! "classification_data.json".
Proof.
  apply (X8_only_artifacts_written "classification_data.json" "classification_data.json"
           world0); vm_compute; discriminate.
Defined.

Lemma readonly_model_fails :
  training_failed "classification_data.json" world_readonly_model.
Proof. eexists _, _. vm_compute. reflexivity. Defined.

Lemma X9_witness :
  let w' := fst (train_linear_svc_model "classification_data.json" world_readonly_model) in
  files w' = files world_readonly_model \/
  (clf_model_file ∈ unwritable world_readonly_model /\
   files w' !! clf_model_file = files world_readonly_model !! clf_model_file /\
   exists w1 cv m,
     fit_stage "classification_data.json" world_readonly_model = (w1, Return (cv, m)) /\
     files w' = <[clf_model_vectorizer_pickle_file :=
                    pickle_dumps (ObjCountVectorizer cv)]>
                  (files world_readonly_model)).
Proof.
  apply (X9_files_after_failure "classification_data.json" world_readonly_model).
  exact readonly_model_fails.
Defined.

Lemma X10_witness :
  let w' := fst (train_linear_svc_model "classification_data.json" world_readonly_model) in
  exists path,
    (path = clf_model_vectorizer_pickle_file \/ path = clf_model_file) /\
    forall utterance,
      classify_trained utterance w' = (w', Raise (FileNotFoundError path)).
Proof.
  apply (X10_classify_after_failed_training "classification_data.json" world_readonly_model).
  - exact readonly_model_fails.
  - vm_compute. reflexivity.
  - vm_compute. reflexivity.
Defined.

Lemma retrain_fails : training_failed "classification_data.json" world_retrain.
Proof. eexists _, _. vm_compute. reflexivity. Defined.

Lemma X11_witness :
  let w' := fst (train_linear_svc_model "classification_data.json" world_retrain) in
  files w' = files world_retrain /\
  forall utterance vectorizer_file model_file,
    snd (classify_utterance utterance vectorizer_file model_file w')
    = snd (classify_utterance utterance vectorizer_file model_file world_retrain).
Proof.
  apply (X11_failed_retraining_keeps_artifacts "classification_data.json" world_retrain).
  - exact retrain_fails.
  - apply (bool_decide_unpack _). vm_compute. exact I.
Defined.

Lemma X12_witness : training_failed "two.json" world_two.
Proof.
  apply (X12_too_little_data "two.json" world_two (frame_of two_examples)
           (CStr <$> (snd <$> two_examples)) (CStr <$> (fst <$> two_examples))).
  - vm_compute. reflexivity.
  - vm_compute. reflexivity.
  - vm_compute. reflexivity.
  - left. vm_compute. lia.
Defined.




End MoreSession.
